(** * tisseo.py: next departures at a Toulouse bus stop

    A shallow embedding of [tisseo.py] and the properties of its stop
    lookup, departure fetch, passage construction, relative-time
    formatting, and filtering / deduplication pipeline.

    Python [str] values are modelled as [string] (the UTF-8 bytes of the
    text); Python [int] values as [Z].  Everything the module obtains from
    its libraries or from the outside world (case folding, the clock, the
    HTTP server, the JSON decoder, the time-zone database, the stop
    directory and the API key) is gathered in the class [World], and every
    function of the module is defined for an arbitrary [World]. *)

From Stdlib Require Import ZArith List String Ascii Bool Lia.
From Stdlib Require Import DecimalString.
Import ListNotations.
Open Scope string_scope.
Open Scope Z_scope.
Open Scope list_scope.

(** String concatenation (Python [+] and [format] on strings). *)
Infix "+++" := String.append (right associativity, at level 60).

Set Implicit Arguments.

(** ** Python strings *)

(** [str(n)] / ["{}".format(n)] for an [int]. *)
Definition str_of_int (n : Z) : string :=
  NilZero.string_of_int (Z.to_int n).

(** [s.replace(old, new)] for one-character [old] and [new]. *)
Fixpoint replace_char (old new : ascii) (s : string) : string :=
  match s with
  | EmptyString => EmptyString
  | String c s' =>
      String (if Ascii.eqb c old then new else c) (replace_char old new s')
  end.

(** [x in l] for a list of strings. *)
Fixpoint str_in (x : string) (l : list string) : bool :=
  match l with
  | [] => false
  | y :: l' => String.eqb y x || str_in x l'
  end.

(** [sub in s] for strings. *)
Fixpoint contains (sub s : string) : bool :=
  String.prefix sub s ||
  match s with
  | EmptyString => false
  | String _ s' => contains sub s'
  end.

(** Lower-casing of the ASCII letters, every other byte kept: what
    [str.lower] does on text whose cased letters are ASCII. *)
Definition ascii_lower_char (c : ascii) : ascii :=
  let n := nat_of_ascii c in
  if (Nat.leb 65 n && Nat.leb n 90)%bool then ascii_of_nat (n + 32) else c.

Fixpoint ascii_lower (s : string) : string :=
  match s with
  | EmptyString => EmptyString
  | String c s' => String (ascii_lower_char c) (ascii_lower s')
  end.

(** ** Exceptions and effects *)

(** The exceptions the module can end with.  [KeyError], [TypeError] and
    [ConnectionError] (that of [requests]) are raised by the module's own
    [raise] statements and by [datetime] arithmetic; [UnboundLocalError] and
    [IndexError] by the interpreter; [OverflowError] by date arithmetic
    that leaves the years 1 to 9999; [RequestException] stands for whatever
    [requests.get] itself raises and [DecodeError] for whatever decoding
    the body raises ([JSONDecodeError], or [AttributeError] on a body of
    another shape). *)
Inductive exn : Type :=
| KeyError (msg : string)
| TypeError (msg : string)
| ConnectionError (msg : string)
| UnboundLocalError (var : string)
| IndexError (msg : string)
| OverflowError (msg : string)
| RequestException (msg : string)
| DecodeError (msg : string).

Definition exn_message (e : exn) : string :=
  match e with
  | KeyError m | TypeError m | ConnectionError m | UnboundLocalError m
  | IndexError m | OverflowError m | RequestException m | DecodeError m => m
  end.

Inductive event : Type :=
| EvPrint (line : string)
| EvHttpGet (url : string)
| EvNow.

(** A computation reads the trace of what happened so far, appends its
    own events in order, and either returns or raises. *)
Definition M (A : Type) : Type := list event -> (exn + A) * list event.

Definition ret {A} (a : A) : M A := fun tr => (inr a, tr).
Definition raise {A} (e : exn) : M A := fun tr => (inl e, tr).
Definition bind {A B} (m : M A) (k : A -> M B) : M B :=
  fun tr =>
    match m tr with
    | (inr a, tr') => k a tr'
    | (inl e, tr') => (inl e, tr')
    end.
Definition emit (e : event) : M unit := fun tr => (inr tt, tr ++ [e]).
Definition lift {A} (r : exn + A) : M A := fun tr => (r, tr).

(** The outcome of a library call, its failure wrapped as an exception. *)
Definition library {A} (mk : string -> exn) (r : string + A) : exn + A :=
  match r with
  | inl msg => inl (mk msg)
  | inr a => inr a
  end.

Declare Scope py_scope.
Delimit Scope py_scope with py.
Notation "x <- m ;; k" := (bind m (fun x => k))
  (at level 61, m at next level, right associativity) : py_scope.
Notation "m ;;; k" := (bind m (fun _ => k))
  (at level 61, right associativity) : py_scope.

(** [for x in l: acc = body(acc, x)] *)
Fixpoint for_each {A B} (body : B -> A -> M B) (l : list A) (acc : B) : M B :=
  match l with
  | [] => ret acc
  | x :: l' => bind (body acc x) (fun acc' => for_each body l' acc')
  end.

(** Number of clock readings recorded in a trace. *)
Fixpoint clock_reads (tr : list event) : nat :=
  match tr with
  | [] => O
  | EvNow :: tr' => S (clock_reads tr')
  | _ :: tr' => clock_reads tr'
  end.

(** ** Dates and durations (the [datetime] library) *)

Record tzinfo : Type := mk_tzinfo {
  zone : string;
  utcoffset : Z  (* seconds east of UTC *)
}.

Record datetime : Type := mk_datetime {
  year : Z; month : Z; day : Z;
  hour : Z; minute : Z; second : Z; microsecond : Z;
  dt_tzinfo : option tzinfo
}.

Definition replace_tzinfo (d : datetime) (tz : option tzinfo) : datetime :=
  mk_datetime (year d) (month d) (day d) (hour d) (minute d) (second d)
              (microsecond d) tz.

(** [timedelta]: [days] any integer, [0 <= seconds < 86400],
    [0 <= microseconds < 1000000] once normalised. *)
Record timedelta : Type := mk_timedelta {
  days : Z; seconds : Z; microseconds : Z
}.

Definition us_per_day : Z := 86400 * 1000000.

(** The constructor [timedelta(days, seconds, microseconds)], which
    normalises its arguments. *)
Definition timedelta_new (d s us : Z) : timedelta :=
  let total := (d * 86400 + s) * 1000000 + us in
  let rem := total mod us_per_day in
  mk_timedelta (total / us_per_day) (rem / 1000000) (rem mod 1000000).

Definition timedelta_total_us (td : timedelta) : Z :=
  (days td * 86400 + seconds td) * 1000000 + microseconds td.

Definition _is_leap (y : Z) : bool :=
  (y mod 4 =? 0) && (negb (y mod 100 =? 0) || (y mod 400 =? 0)).

Definition _days_before_year (y : Z) : Z :=
  let y := y - 1 in y * 365 + y / 4 - y / 100 + y / 400.

Definition _DAYS_BEFORE_MONTH : list Z :=
  [-1; 0; 31; 59; 90; 120; 151; 181; 212; 243; 273; 304; 334].

Definition _days_before_month (y m : Z) : Z :=
  nth (Z.to_nat m) _DAYS_BEFORE_MONTH 0
  + (if (2 <? m) && _is_leap y then 1 else 0).

Definition _ymd2ord (y m d : Z) : Z :=
  _days_before_year y + _days_before_month y m + d.

Definition toordinal (d : datetime) : Z := _ymd2ord (year d) (month d) (day d).

(** [a - b] for two datetimes. *)
Definition datetime_sub (a b : datetime) : exn + timedelta :=
  let secs1 := second a + minute a * 60 + hour a * 3600 in
  let secs2 := second b + minute b * 60 + hour b * 3600 in
  let bd := toordinal a - toordinal b in
  let bs := secs1 - secs2 in
  let bu := microsecond a - microsecond b in
  match dt_tzinfo a, dt_tzinfo b with
  | None, None => inr (timedelta_new bd bs bu)
  | Some ta, Some tb =>
      if utcoffset ta =? utcoffset tb then inr (timedelta_new bd bs bu)
      else inr (timedelta_new bd (bs + utcoffset tb - utcoffset ta) bu)
  | _, _ =>
      inl (TypeError "can't subtract offset-naive and offset-aware datetimes")
  end.

(** ** Records of the transit API and of the stop directory *)

Record stop_area : Type := mk_stop_area {
  sa_name : string;
  sa_id : string
}.

Record json_line : Type := mk_json_line { shortName : string }.
Record json_destination : Type := mk_json_destination { dest_name : string }.

Record raw_departure : Type := mk_raw_departure {
  dateTime : string;
  rd_line : json_line;
  rd_destination : list json_destination
}.

Record response : Type := mk_response {
  status_code : Z;
  text : string
}.

(** ** The world outside the module *)

Class World : Type := {
  (** [str.lower] *)
  lower : string -> string;
  (** [datetime.strptime(s, fmt)]; [None] when it raises *)
  strptime : string -> string -> option datetime;
  (** offset in seconds that [pytz.timezone(z).localize] gives a naive time *)
  pytz_utcoffset : string -> datetime -> Z;
  (** [datetime.now()], as a function of the number of earlier readings *)
  clock : nat -> datetime;
  (** [requests.get(url)]; [inl] when the call itself raises *)
  requests_get : string -> string + response;
  (** [json.loads(body).get("departures").get("departure")]; [inl] when
      it raises *)
  json_departures : string -> string + list raw_departure;
  (** the list loaded from [stop_areas.json] *)
  STOP_AREAS_DICT : list stop_area;
  (** the environment variable [TISSEO_API_KEY] *)
  _TISSEO_API_KEY : string
}.

(** [divmod(a, b)] on integers: floor division and its remainder. *)
Definition divmod (a b : Z) : Z * Z := (a / b, a mod b).

(** [len(l)] *)
Definition len {A} (l : list A) : Z := Z.of_nat (List.length l).

(** [l[0]] *)
Definition first_item {A} (l : list A) : exn + A :=
  match l with
  | x :: _ => inr x
  | [] => inl (IndexError "list index out of range")
  end.

(** ** The module *)

Record Passage : Type := mk_Passage {
  date_str : string;
  ligne : string;
  destination : string;
  date_obj : datetime;
  p_timedelta : timedelta;
  timedelta_str : string;
  ligne_destination : string
}.

(** Whether [d - 1 day] or [d + 1 day] leaves the range of [datetime],
    0001-01-01 to 9999-12-31. *)
Definition localize_overflows (d : datetime) : bool :=
  ((year d =? 1) && (month d =? 1) && (day d =? 1))
  || ((year d =? 9999) && (month d =? 12) && (day d =? 31)).

Definition _URL_TISSEO_API : string := "https://api.tisseo.fr/v1".
Definition _DEFAULT_DATE_FORMAT : string := "%Y-%m-%d %H:%M:%S".
Definition _TISSEO_TIMEZONE : string := "Europe/Paris".
Definition _AWS_LAMBDA_TIMEZONE : string := "UTC".

(** The instant of a passage as the constructor stores it: the raw
    string, the parsed time and the time remaining. *)
Definition instant : Type := string * datetime * timedelta.

Section Tisseo.
Context {W : World}.

(** [d.replace(tzinfo=...)] with the zone [z] at the offset pytz picks for
    the wall time [d]: what [localize] returns when it returns. *)
Definition attach_zone (z : string) (d : datetime) : datetime :=
  replace_tzinfo d (Some (mk_tzinfo z (pytz_utcoffset z d))).

(** [pytz.timezone(z).localize(d)] for a naive [d].  For "UTC" it is
    [d.replace(tzinfo=utc)].  Every other zone of the module
    (Europe/Paris) is a zone with transitions, whose [localize] first
    computes [d - 1 day] and [d + 1 day] to find the candidate offsets:
    that arithmetic raises [OverflowError] on the first and on the last
    day of the calendar. *)
Definition localize (z : string) (d : datetime) : exn + datetime :=
  if String.eqb z "UTC" then inr (attach_zone z d)
  else if localize_overflows d then
    inl (OverflowError "date value out of range")
  else inr (attach_zone z d).

(** [datetime.now()] *)
Definition datetime_now : M datetime :=
  fun tr => (inr (clock (clock_reads tr)), tr ++ [EvNow]).

Definition get_stop_area_by_name (stop_area_name : string) : list stop_area :=
  fold_left
    (fun stop_areas stop_area =>
       if String.eqb (lower (sa_name stop_area)) (lower stop_area_name)
       then stop_areas ++ [stop_area]
       else stop_areas)
    STOP_AREAS_DICT [].

Definition stops_schedules_url (stop_area_id : string) (limit : Z)
    (from_date : option string) : string :=
  let url := _URL_TISSEO_API +++ "/stops_schedules.json?stopAreaId="
             +++ stop_area_id +++ "&key=" +++ _TISSEO_API_KEY
             +++ "&number=" +++ str_of_int limit in
  match from_date with
  | Some d => url +++ "&datetime=" +++ d
  | None => url
  end.

Definition get_prochains_passages_for_stop_area_id (stop_area_id : string)
    (limit : Z) (from_date : option string) : M (list raw_departure) :=
  (let url := stops_schedules_url stop_area_id limit from_date in
   emit (EvHttpGet url) ;;;
   r <- lift (library RequestException (requests_get url)) ;;
   if negb (status_code r =? 200) then
     raise (ConnectionError
              ("Status code " +++ str_of_int (status_code r)
               +++ " for url " +++ url))
   else
     lift (library DecodeError (json_departures (text r))))%py.

(** The unused helper [_get], given the response its session returns. *)
Definition _get (r : response) (url : string) (expected_status_code : Z)
    : exn + unit :=
  if negb (status_code r =? expected_status_code) then
    inl (ConnectionError
           ("Status code " +++ str_of_int (status_code r) +++ " for url "
            +++ url +++ String "010" (text r)))
  else inr tt.

Definition _str_datetime_to_datetime_obj (str_datetime date_format : string)
    : exn + datetime :=
  match strptime str_datetime date_format with
  | None =>
      inl (TypeError ("date must match the format " +++ date_format
                      +++ ", received : " +++ str_datetime))
  | Some datetime_obj =>
      match dt_tzinfo datetime_obj with
      | None => localize _TISSEO_TIMEZONE datetime_obj
      | Some _ => inr datetime_obj
      end
  end.

Definition _get_timedelta (date : datetime) : M timedelta :=
  (now <- datetime_now ;;
   now <- lift (match dt_tzinfo now with
                | None => localize _AWS_LAMBDA_TIMEZONE now
                | Some _ => inr now
                end) ;;
   lift (datetime_sub date now))%py.

Definition _timedelta_to_str (time_delta : timedelta) : string :=
  let d_days := days time_delta in
  let '(d_hours, rem) := divmod (seconds time_delta) 3600 in
  let '(d_minutes, d_seconds) := divmod rem 60 in
  if d_days >? 0 then
    str_of_int d_days +++ " jours"
  else if d_hours >? 0 then
    let delta := str_of_int d_hours +++ " heures" in
    if d_minutes >? 0 then
      delta +++ " et " +++ str_of_int d_minutes +++ " minutes"
    else delta
  else if d_minutes <? 1 then
    "moins d'une minute"
  else
    str_of_int d_minutes +++ " minutes".

(** The object [Passage.__init__] leaves, given the instant it computed. *)
Definition passage_at (t : instant) (ligne destination : string) : Passage :=
  let '(date, date_obj, timedelta) := t in
  mk_Passage date ligne destination date_obj timedelta
             (_timedelta_to_str timedelta)
             (ligne +++ " : " +++ destination).

(** [Passage.__init__] *)
Definition Passage__init__ (date ligne destination : string) : M Passage :=
  (date_obj <- lift (_str_datetime_to_datetime_obj date _DEFAULT_DATE_FORMAT) ;;
   timedelta <- _get_timedelta date_obj ;;
   ret (passage_at (date, date_obj, timedelta) ligne destination))%py.

Definition _filter_passages_for_one_line
    (liste_prochains_passages : list Passage) (line : option string)
    : list Passage :=
  match line with
  | Some line =>
      if negb (String.eqb line "None") then
        fold_left
          (fun liste_p p =>
             if String.eqb (lower (ligne p)) (lower line)
             then liste_p ++ [p] else liste_p)
          liste_prochains_passages []
      else liste_prochains_passages
  | None => liste_prochains_passages
  end.

Definition _filter_passages_for_a_destination
    (liste_prochains_passages : list Passage) (dest : option string)
    : list Passage :=
  match dest with
  | Some dest =>
      if negb (String.eqb dest "None") then
        fold_left
          (fun liste_p p =>
             if String.eqb
                  (replace_char "-" " " (lower (destination p)))
                  (replace_char "-" " " (lower dest))
             then liste_p ++ [p] else liste_p)
          liste_prochains_passages []
      else liste_prochains_passages
  | None => liste_prochains_passages
  end.

(** The last loop of [_filter_passages]: one pass with the list kept and
    the list of keys already covered. *)
Definition dedup_loop (liste_prochains_passages : list Passage)
    : list Passage * list string :=
  fold_left
    (fun '(liste_p, ligne_destination_couvertes) p =>
       if negb (str_in (ligne_destination p) ligne_destination_couvertes)
       then (liste_p ++ [p],
             ligne_destination_couvertes ++ [ligne_destination p])
       else (liste_p, ligne_destination_couvertes))
    liste_prochains_passages ([], []).

Definition _filter_passages (liste_prochains_passages : list Passage)
    (line destination : option string) : list Passage :=
  let liste_prochains_passages :=
    _filter_passages_for_one_line liste_prochains_passages line in
  let liste_prochains_passages :=
    _filter_passages_for_a_destination liste_prochains_passages destination in
  fst (dedup_loop liste_prochains_passages).

Definition prochains_passages (stop_area_name : string)
    (destination line : option string) : M (list Passage) :=
  (let stop_areas := get_stop_area_by_name stop_area_name in
   (if len stop_areas <? 1 then
      raise (KeyError ("Arrêt " +++ stop_area_name +++ " inconnu"))
    else if len stop_areas >? 1 then
      emit (EvPrint ("Plusieurs arrêts trouvés pour " +++ stop_area_name))
    else ret tt) ;;;
   stop_area <- lift (first_item stop_areas) ;;
   let stop_area_id := sa_id stop_area in
   json_prochains_passages <-
     get_prochains_passages_for_stop_area_id stop_area_id 15 None ;;
   (* [liste_prochains_passages] is bound by the [else] branch only *)
   liste_prochains_passages <-
     (if len json_prochains_passages <? 1 then
        ret None
      else
        l <- for_each
               (fun liste passage =>
                  let d := dateTime passage in
                  let l := shortName (rd_line passage) in
                  dest0 <- lift (first_item (rd_destination passage)) ;;
                  p <- Passage__init__ d l (dest_name dest0) ;;
                  ret (liste ++ [p]))
               json_prochains_passages [] ;;
        ret (Some (_filter_passages l line destination))) ;;
   match liste_prochains_passages with
   | Some l => ret l
   | None => raise (UnboundLocalError "liste_prochains_passages")
   end)%py.

End Tisseo.

(** ** A concrete world

    An instance of [World] on which the module can be run: ASCII case
    folding, a parser for zero-padded [YYYY-MM-DD HH:MM:SS] timestamps,
    winter-time offsets (Paris one hour east of UTC), a clock stopped at
    [now], and a server that answers every request with [resp], whose body
    decodes to [deps]. *)

Definition digit_val (c : ascii) : option Z :=
  let n := nat_of_ascii c in
  if (Nat.leb 48 n && Nat.leb n 57)%bool then Some (Z.of_nat (n - 48)) else None.

Fixpoint digits_val (cs : list ascii) (acc : Z) : option Z :=
  match cs with
  | [] => Some acc
  | c :: cs' =>
      match digit_val c with
      | Some v => digits_val cs' (acc * 10 + v)
      | None => None
      end
  end.

Definition days_in_month (y m : Z) : Z :=
  if m =? 2 then (if _is_leap y then 29 else 28)
  else if (m =? 4) || (m =? 6) || (m =? 9) || (m =? 11) then 30 else 31.

Definition padded_strptime (s fmt : string) : option datetime :=
  if negb (String.eqb fmt _DEFAULT_DATE_FORMAT) then None else
  match list_ascii_of_string s with
  | [y1; y2; y3; y4; s1; m1; m2; s2; d1; d2; s3; h1; h2; s4; i1; i2; s5; c1; c2] =>
      if negb (Ascii.eqb s1 "-" && Ascii.eqb s2 "-" && Ascii.eqb s3 " "
               && Ascii.eqb s4 ":" && Ascii.eqb s5 ":")
      then None else
      match digits_val [y1; y2; y3; y4] 0, digits_val [m1; m2] 0,
            digits_val [d1; d2] 0, digits_val [h1; h2] 0,
            digits_val [i1; i2] 0, digits_val [c1; c2] 0 with
      | Some y, Some m, Some d, Some h, Some i, Some c =>
          if (1 <=? y) && (1 <=? m) && (m <=? 12) && (1 <=? d)
             && (d <=? days_in_month y m) && (h <=? 23) && (i <=? 59)
             && (c <=? 59)
          then Some (mk_datetime y m d h i c 0 None)
          else None
      | _, _, _, _, _, _ => None
      end
  | _ => None
  end.

Definition winter_utcoffset (z : string) (_ : datetime) : Z :=
  if String.eqb z "Europe/Paris" then 3600 else 0.

Definition example_world (dir : list stop_area) (resp : string + response)
    (deps : string + list raw_departure) (now : datetime) : World :=
  {| lower := ascii_lower;
     strptime := padded_strptime;
     pytz_utcoffset := winter_utcoffset;
     clock := fun _ => now;
     requests_get := fun _ => resp;
     json_departures := fun _ => deps;
     STOP_AREAS_DICT := dir;
     _TISSEO_API_KEY := "k3y" |}.

Definition example_directory : list stop_area :=
  [ mk_stop_area "Capitole" "1970324837184714";
    mk_stop_area "Jean Jaurès" "1970324837185012";
    mk_stop_area "CAPITOLE" "1970324837190000";
    mk_stop_area "Saint-Cyprien République" "1970324837186323" ].

Definition example_now : datetime :=
  mk_datetime 2023 1 15 11 30 0 0 None.

Definition departure (d l dest : string) : raw_departure :=
  mk_raw_departure d (mk_json_line l) [mk_json_destination dest].

Definition example_departures : list raw_departure :=
  [ departure "2023-01-15 12:52:00" "L6" "Ramonville";
    departure "2023-01-15 12:55:00" "109" "Labège";
    departure "2023-01-15 13:15:00" "L6" "Ramonville";
    departure "2023-01-15 14:05:00" "L6" "Castanet" ].

Definition ok_world (deps : list raw_departure) : World :=
  example_world example_directory (inr (mk_response 200 "{...}")) (inr deps)
                example_now.

Definition failing_world (status : Z) (body : string) : World :=
  example_world example_directory (inr (mk_response status body))
                (inl "Expecting value: line 1 column 1 (char 0)") example_now.

Definition example_instant : instant :=
  ("2023-01-15 12:52:00",
   mk_datetime 2023 1 15 12 52 0 0 (Some (mk_tzinfo "Europe/Paris" 3600)),
   mk_timedelta 0 1320 0).

(** ** Specification-side definitions *)

(** Keep the first occurrence of each key, in order. *)
Fixpoint keep_first {A K} (eqb : K -> K -> bool) (key : A -> K) (l : list A)
    : list A :=
  match l with
  | [] => []
  | x :: l' =>
      x :: filter (fun y => negb (eqb (key y) (key x))) (keep_first eqb key l')
  end.

Definition line_destination_pair (p : Passage) : string * string :=
  (ligne p, destination p).

Definition pair_eqb (a b : string * string) : bool :=
  String.eqb (fst a) (fst b) && String.eqb (snd a) (snd b).

(** The destination test in the words of the specification: equal without
    regard to case once hyphens are spaces on both sides. *)
Definition spec_destination_matches {W : World} (dest : string) (p : Passage)
    : bool :=
  String.eqb (lower (replace_char "-" " " (destination p)))
             (lower (replace_char "-" " " dest)).

(** The destination test as the code evaluates it. *)
Definition destination_matches {W : World} (dest : string) (p : Passage)
    : bool :=
  String.eqb (replace_char "-" " " (lower (destination p)))
             (replace_char "-" " " (lower dest)).

(** Case folding leaves hyphens and spaces alone. *)
Definition lower_respects_hyphens (W : World) : Prop :=
  forall s, lower (replace_char "-" " " s) = replace_char "-" " " (lower s).

(** An error carries a text when the text occurs in its message. *)
Definition error_carries (e : exn) (s : string) : Prop :=
  contains s (exn_message e) = true.

(** The string for [h] hours and [m] minutes when the day count is not
    positive. *)
Definition hours_minutes_str (h m : Z) : string :=
  if h >? 0 then
    if m >? 0 then
      str_of_int h +++ " heures" +++ " et " +++ str_of_int m +++ " minutes"
    else str_of_int h +++ " heures"
  else if m <? 1 then "moins d'une minute"
  else str_of_int m +++ " minutes".

(** A computation that only appends to the trace and never ends with
    [KeyError]. *)
Definition appends_without_KeyError {A} (m : M A) : Prop :=
  forall tr,
    (exists suffix, snd (m tr) = tr ++ suffix)
    /\ (forall msg, fst (m tr) <> inl (KeyError msg)).

Definition no_sign_no_days (s : string) : bool :=
  negb (contains "-" s) && negb (contains "jours" s).

(** The deduplication loop, unrolled from any intermediate state. *)
Fixpoint dedup_from (seen : list string) (l : list Passage) : list Passage :=
  match l with
  | [] => []
  | p :: l' =>
      if str_in (ligne_destination p) seen then dedup_from seen l'
      else p :: dedup_from (seen ++ [ligne_destination p]) l'
  end.

(** ** Reference definitions for the rest of the pipeline *)

(** The line test as the code evaluates it. *)
Definition line_matches {W : World} (line : string) (p : Passage) : bool :=
  String.eqb (lower (ligne p)) (lower line).

(** Whether a passage passes the line argument of [_filter_passages],
    absent and "None" selecting everything. *)
Definition line_selected {W : World} (line : option string) (p : Passage)
    : bool :=
  match line with
  | Some s => if String.eqb s "None" then true else line_matches s p
  | None => true
  end.

(** Whether a passage passes the destination argument. *)
Definition destination_selected {W : World} (dest : option string)
    (p : Passage) : bool :=
  match dest with
  | Some s => if String.eqb s "None" then true else destination_matches s p
  | None => true
  end.

(** The clock reading as [_get_timedelta] uses it: made aware by the
    [localize] of UTC, which always returns. *)
Definition aware_now {W : World} (now : datetime) : datetime :=
  match dt_tzinfo now with
  | None => attach_zone _AWS_LAMBDA_TIMEZONE now
  | Some _ => now
  end.

(** The body of the loop of [prochains_passages]. *)
Definition passages_loop_body {W : World} (liste : list Passage)
    (passage : raw_departure) : M (list Passage) :=
  (let d := dateTime passage in
   let l := shortName (rd_line passage) in
   dest0 <- lift (first_item (rd_destination passage)) ;;
   p <- Passage__init__ d l (dest_name dest0) ;;
   ret (liste ++ [p]))%py.

(** The outcome of one turn of the loop of [prochains_passages] when the
    clock reads [now]: the passage built from a raw departure, or the
    exception that ends the loop. *)
Definition passage_of_departure {W : World} (now : datetime)
    (passage : raw_departure) : exn + Passage :=
  match first_item (rd_destination passage) with
  | inl e => inl e
  | inr dest0 =>
      match _str_datetime_to_datetime_obj (dateTime passage)
              _DEFAULT_DATE_FORMAT with
      | inl e => inl e
      | inr date_obj =>
          match datetime_sub date_obj (aware_now now) with
          | inl e => inl e
          | inr td =>
              inr (passage_at (dateTime passage, date_obj, td)
                     (shortName (rd_line passage)) (dest_name dest0))
          end
      end
  end.

(** The outcome of the whole loop when [n] clock readings came before. *)
Fixpoint build_passages {W : World} (n : nat) (deps : list raw_departure)
    : exn + list Passage :=
  match deps with
  | [] => inr []
  | dep :: deps' =>
      match passage_of_departure (clock n) dep with
      | inl e => inl e
      | inr p =>
          match build_passages (S n) deps' with
          | inl e => inl e
          | inr ps => inr (p :: ps)
          end
      end
  end.

Definition first_destination_name (dep : raw_departure) : option string :=
  match rd_destination dep with
  | x :: _ => Some (dest_name x)
  | [] => None
  end.

(** A raw departure with a destination and a timestamp that parses to a
    time [localize] accepts: one with a zone, or one that is not on the
    first or the last day of the calendar. *)
Definition well_formed_departure {W : World} (dep : raw_departure) : Prop :=
  rd_destination dep <> []
  /\ exists d,
       strptime (dateTime dep) _DEFAULT_DATE_FORMAT = Some d
       /\ (dt_tzinfo d = None -> localize_overflows d = false).

(** The instant of a datetime, in microseconds of UTC since the start of
    the proleptic calendar; a naive value counts as UTC. *)
Definition utc_microseconds (d : datetime) : Z :=
  ((toordinal d * 86400 + hour d * 3600 + minute d * 60 + second d
    - match dt_tzinfo d with Some tz => utcoffset tz | None => 0 end)
   * 1000000) + microsecond d.

Fixpoint count_requests (tr : list event) : nat :=
  match tr with
  | [] => O
  | EvHttpGet _ :: tr' => S (count_requests tr')
  | _ :: tr' => count_requests tr'
  end.

Fixpoint count_warnings (tr : list event) : nat :=
  match tr with
  | [] => O
  | EvPrint _ :: tr' => S (count_warnings tr')
  | _ :: tr' => count_warnings tr'
  end.

(** A computation whose only effect is to read the clock. *)
Definition reads_clock_only {A} (m : M A) : Prop :=
  forall tr, exists n, snd (m tr) = tr ++ repeat EvNow n.

(** Proves [Forall well_formed_departure] of a concrete list. *)
Ltac well_formed_departures :=
  repeat (apply Forall_cons;
          [ split;
            [ discriminate
            | eexists; split; [cbv; reflexivity | intros _; reflexivity] ]
          | ]);
  apply Forall_nil.

(** * Properties *)

(** ** Lists built by a loop of [append] *)

Lemma fold_left_append_filter {A} (f : A -> bool) (l acc : list A) :
  fold_left (fun acc x => if f x then acc ++ [x] else acc) l acc
  = acc ++ filter f l.
Proof.
  revert acc; induction l as [|x l IH]; intros acc; simpl.
  - now rewrite app_nil_r.
  - rewrite IH. destruct (f x); [now rewrite <- app_assoc | reflexivity].
Qed.

Lemma filter_filter {A} (f g : A -> bool) (l : list A) :
  filter f (filter g l) = filter (fun x => g x && f x) l.
Proof.
  induction l as [|x l IH]; simpl; [reflexivity|].
  destruct (g x); simpl; [destruct (f x)|]; now rewrite IH.
Qed.

Lemma str_in_In (x : string) (l : list string) :
  str_in x l = true <-> In x l.
Proof.
  induction l as [|y l IH]; simpl.
  - split; [discriminate | tauto].
  - rewrite orb_true_iff, String.eqb_eq, IH. tauto.
Qed.

Lemma str_in_app (x : string) (l1 l2 : list string) :
  str_in x (l1 ++ l2) = str_in x l1 || str_in x l2.
Proof.
  induction l1 as [|y l1 IH]; simpl; [reflexivity|].
  now rewrite IH, orb_assoc.
Qed.

Lemma keep_first_incl {A K} (eqb : K -> K -> bool) (key : A -> K) (l : list A) :
  forall x, In x (keep_first eqb key l) -> In x l.
Proof.
  induction l as [|y l IH]; simpl; [tauto|].
  intros x [->|H]; [now left|].
  apply filter_In in H. right. apply IH, H.
Qed.

Lemma keep_first_ext {A K K'} (eqb : K -> K -> bool) (eqb' : K' -> K' -> bool)
    (key : A -> K) (key' : A -> K') (l : list A) :
  (forall x y, In x l -> In y l -> eqb (key x) (key y) = eqb' (key' x) (key' y)) ->
  keep_first eqb key l = keep_first eqb' key' l.
Proof.
  induction l as [|x l IH]; simpl; intros H; [reflexivity|].
  rewrite IH by (intros; apply H; now right).
  f_equal. apply filter_ext_in. intros y Hy.
  rewrite H; [reflexivity| |now left].
  right. eapply keep_first_incl, Hy.
Qed.

(** ** The deduplication loop *)

Lemma dedup_fold_from (l acc : list Passage) (seen : list string) :
  fst (fold_left
         (fun '(liste_p, ligne_destination_couvertes) p =>
            if negb (str_in (ligne_destination p) ligne_destination_couvertes)
            then (liste_p ++ [p],
                  ligne_destination_couvertes ++ [ligne_destination p])
            else (liste_p, ligne_destination_couvertes))
         l (acc, seen))
  = acc ++ dedup_from seen l.
Proof.
  revert acc seen; induction l as [|p l IH]; intros acc seen; simpl.
  - now rewrite app_nil_r.
  - destruct (str_in (ligne_destination p) seen); simpl; rewrite IH.
    + reflexivity.
    + now rewrite <- app_assoc.
Qed.

Lemma dedup_from_keep_first (l : list Passage) (seen : list string) :
  dedup_from seen l
  = filter (fun q => negb (str_in (ligne_destination q) seen))
           (keep_first String.eqb ligne_destination l).
Proof.
  revert seen; induction l as [|p l IH]; intros seen; simpl; [reflexivity|].
  destruct (str_in (ligne_destination p) seen) eqn:Hp; simpl.
  - rewrite IH, filter_filter. apply filter_ext. intros q.
    destruct (String.eqb (ligne_destination q) (ligne_destination p)) eqn:E;
      simpl; [|reflexivity].
    apply String.eqb_eq in E. now rewrite E, Hp.
  - f_equal. rewrite IH, filter_filter. apply filter_ext. intros q.
    rewrite str_in_app. simpl. rewrite orb_false_r, negb_orb.
    rewrite (String.eqb_sym (ligne_destination p)). apply andb_comm.
Qed.

Lemma dedup_loop_keep_first (l : list Passage) :
  fst (dedup_loop l) = keep_first String.eqb ligne_destination l.
Proof.
  unfold dedup_loop. rewrite dedup_fold_from, dedup_from_keep_first. simpl.
  induction (keep_first String.eqb ligne_destination l) as [|x k IH]; simpl;
    [reflexivity | now rewrite IH].
Qed.

Lemma pair_eqb_eq (a b : string * string) : pair_eqb a b = true <-> a = b.
Proof.
  destruct a as [a1 a2], b as [b1 b2]. unfold pair_eqb; simpl.
  rewrite andb_true_iff, !String.eqb_eq. split; [intros []|intros [=]]; now subst.
Qed.

Lemma dedup_from_snoc (l : list Passage) (p : Passage) (seen : list string) :
  dedup_from seen (l ++ [p])
  = dedup_from seen l
    ++ (if str_in (ligne_destination p) (seen ++ map ligne_destination l)
        then [] else [p]).
Proof.
  revert seen; induction l as [|x l IH]; intros seen; simpl.
  - rewrite app_nil_r. now destruct (str_in (ligne_destination p) seen).
  - destruct (str_in (ligne_destination x) seen) eqn:Hx.
    + rewrite IH. f_equal. rewrite !str_in_app. simpl.
      destruct (String.eqb (ligne_destination x) (ligne_destination p)) eqn:E;
        [|reflexivity].
      apply String.eqb_eq in E. rewrite <- E, Hx. reflexivity.
    + simpl. rewrite IH. do 2 f_equal.
      now rewrite <- app_assoc.
Qed.

Lemma dedup_loop_snoc (l : list Passage) (p : Passage) :
  fst (dedup_loop (l ++ [p]))
  = fst (dedup_loop l)
    ++ (if str_in (ligne_destination p) (map ligne_destination l)
        then [] else [p]).
Proof.
  unfold dedup_loop. rewrite !dedup_fold_from. simpl. apply dedup_from_snoc.
Qed.

Lemma filter_passages_unfold {W : World} (l : list Passage)
    (line dest : option string) :
  _filter_passages l line dest
  = keep_first String.eqb ligne_destination
      (_filter_passages_for_a_destination
         (_filter_passages_for_one_line l line) dest).
Proof. unfold _filter_passages. apply dedup_loop_keep_first. Qed.

(** C2 (as amended).  Deduplication keeps exactly the first occurrence of
    each distinct key [ligne_destination] (the string
    ["{line} : {destination}"]) and preserves the relative order of what it
    keeps: a passage appended to a list is kept, at the end, exactly when
    its key occurs nowhere in that list; on a list where equal keys only
    come from equal (line, destination) pairs this is the first occurrence
    of each distinct pair;
    and the four departures L6/Ramonville, 109/Labège, L6/Ramonville,
    L6/Castanet yield the first, second and fourth. *)
Theorem filter_passages_keeps_first_of_each_key :
  (forall (W : World) (l : list Passage) (line dest : option string),
      _filter_passages l line dest
      = keep_first String.eqb ligne_destination
          (_filter_passages_for_a_destination
             (_filter_passages_for_one_line l line) dest))
  /\ (forall (W : World) (l : list Passage),
         (forall p, In p l ->
                    ligne_destination p = ligne p +++ " : " +++ destination p) ->
         (forall p q, In p l -> In q l ->
                      ligne_destination p = ligne_destination q ->
                      line_destination_pair p = line_destination_pair q) ->
         _filter_passages l None None
         = keep_first pair_eqb line_destination_pair l)
  /\ (forall (W : World) (l : list Passage) (p : Passage),
         _filter_passages (l ++ [p]) None None
         = _filter_passages l None None
           ++ (if str_in (ligne_destination p) (map ligne_destination l)
               then [] else [p]))
  /\ (forall (W : World) (t1 t2 t3 t4 : instant),
         _filter_passages
           [ passage_at t1 "L6" "Ramonville"; passage_at t2 "109" "Labège";
             passage_at t3 "L6" "Ramonville"; passage_at t4 "L6" "Castanet" ]
           None None
         = [ passage_at t1 "L6" "Ramonville"; passage_at t2 "109" "Labège";
             passage_at t4 "L6" "Castanet" ]).
Proof.
  split; [|split; [|split]].
  - intros W l line dest. apply filter_passages_unfold.
  - intros W l Hkey Hinj. rewrite filter_passages_unfold. simpl.
    apply keep_first_ext. intros p q Hp Hq.
    destruct (String.eqb (ligne_destination p) (ligne_destination q)) eqn:E.
    + apply String.eqb_eq in E. symmetry. apply pair_eqb_eq. now apply Hinj.
    + symmetry. apply not_true_is_false. intros Hpq.
      apply pair_eqb_eq in Hpq. unfold line_destination_pair in Hpq.
      injection Hpq as Hl Hd.
      apply String.eqb_neq in E. apply E.
      now rewrite (Hkey p Hp), (Hkey q Hq), Hl, Hd.
  - intros W l p. apply dedup_loop_snoc.
  - intros W [[s1 o1] d1] [[s2 o2] d2] [[s3 o3] d3] [[s4 o4] d4].
    rewrite filter_passages_unfold. reflexivity.
Qed.

Lemma filter_passages_keeps_first_of_each_key_witness :
  let l := [ passage_at example_instant "L6" "Ramonville";
             passage_at example_instant "L6" "Castanet";
             passage_at example_instant "L6" "Ramonville" ] in
  @_filter_passages (ok_world []) l None None
  = keep_first pair_eqb line_destination_pair l.
Proof.
  intro l.
  apply (proj1 (proj2 filter_passages_keeps_first_of_each_key) (ok_world []) l).
  - intros p [<-|[<-|[<-|[]]]]; reflexivity.
  - intros p q [<-|[<-|[<-|[]]]] [<-|[<-|[<-|[]]]]; simpl; intros E;
      first [reflexivity | discriminate E].
Defined.

(** C2 (as stated) fails: two passages whose (line, destination) pairs
    differ but whose keys coincide are not both kept, although each is the
    first occurrence of its pair. *)
Lemma filter_passages_first_of_each_pair_counterexample :
  let p1 := passage_at example_instant "A : B" "C" in
  let p2 := passage_at example_instant "A" "B : C" in
  keep_first pair_eqb line_destination_pair [p1; p2] = [p1; p2]
  /\ @_filter_passages (ok_world []) [p1; p2] None None = [p1]
  /\ @_filter_passages (ok_world []) [p1; p2] None None
     <> keep_first pair_eqb line_destination_pair [p1; p2].
Proof.
  repeat split; try reflexivity. discriminate.
Qed.

(** C10.  Deduplication compares the flat key, not the pair: the passages
    of line "A : B" to "C" and of line "A" to "B : C" have different
    (line, destination) pairs and the same key, and the later one is
    dropped. *)
Theorem dedup_key_collision_drops_distinct_pair :
  forall (W : World) (t1 t2 : instant),
    let p1 := passage_at t1 "A : B" "C" in
    let p2 := passage_at t2 "A" "B : C" in
    line_destination_pair p1 <> line_destination_pair p2
    /\ ligne_destination p1 = ligne_destination p2
    /\ ligne_destination p1 = "A : B : C"
    /\ _filter_passages [p1; p2] None None = [p1].
Proof.
  intros W [[s1 o1] d1] [[s2 o2] d2]. simpl.
  repeat split; try reflexivity. discriminate.
Qed.

Lemma dedup_key_collision_drops_distinct_pair_witness :
  @_filter_passages (ok_world [])
    [ passage_at example_instant "A : B" "C";
      passage_at ("2023-01-15 13:15:00",
                  mk_datetime 2023 1 15 13 15 0 0
                    (Some (mk_tzinfo "Europe/Paris" 3600)),
                  mk_timedelta 0 2700 0) "A" "B : C" ]
    None None
  = [ passage_at example_instant "A : B" "C" ].
Proof.
  apply (dedup_key_collision_drops_distinct_pair (ok_world []) example_instant
           ("2023-01-15 13:15:00",
            mk_datetime 2023 1 15 13 15 0 0
              (Some (mk_tzinfo "Europe/Paris" 3600)),
            mk_timedelta 0 2700 0)).
Defined.

(** ** Stop lookup *)

(** C5.  [get_stop_area_by_name] returns exactly the directory entries
    whose lower-cased name equals the lower-cased query, all of them and in
    directory order; "capitole" finds the entries named "Capitole" (and
    "CAPITOLE"). *)
Theorem get_stop_area_by_name_case_insensitive :
  (forall (W : World) (name : string),
      get_stop_area_by_name name
      = filter (fun sa => String.eqb (lower (sa_name sa)) (lower name))
               STOP_AREAS_DICT)
  /\ (forall (W : World) (name : string) (sa : stop_area),
         In sa (get_stop_area_by_name name)
         <-> In sa STOP_AREAS_DICT /\ lower (sa_name sa) = lower name)
  /\ @get_stop_area_by_name (ok_world []) "capitole"
     = [ mk_stop_area "Capitole" "1970324837184714";
         mk_stop_area "CAPITOLE" "1970324837190000" ].
Proof.
  assert (E : forall (W : World) name,
             get_stop_area_by_name name
             = filter (fun sa => String.eqb (lower (sa_name sa)) (lower name))
                      STOP_AREAS_DICT).
  { intros W name. unfold get_stop_area_by_name.
    now rewrite (fold_left_append_filter
                   (fun sa => String.eqb (lower (sa_name sa)) (lower name))). }
  split; [exact E | split].
  - intros W name sa. rewrite E, filter_In, String.eqb_eq. tauto.
  - reflexivity.
Qed.

Lemma get_stop_area_by_name_case_insensitive_witness :
  In (mk_stop_area "Capitole" "1970324837184714")
     (@get_stop_area_by_name (ok_world []) "capitole").
Proof.
  apply (proj1 (proj2 get_stop_area_by_name_case_insensitive)
               (ok_world []) "capitole").
  split; [simpl; tauto | reflexivity].
Defined.

(** ** Destination filter *)

Lemma ascii_lower_respects_hyphens (s : string) :
  ascii_lower (replace_char "-" " " s) = replace_char "-" " " (ascii_lower s).
Proof.
  induction s as [|c s IH]; simpl; [reflexivity|].
  rewrite IH. f_equal.
  destruct c as [[] [] [] [] [] [] [] []]; reflexivity.
Qed.

(** C4.  With a destination that is neither absent nor the string "None",
    the destination filter keeps exactly, and in order, the passages whose
    destination equals the argument once both are lower-cased and have
    their hyphens replaced by spaces (in either order of the two steps when
    case folding leaves hyphens and spaces alone), so that "Saint Cyprien"
    selects "Saint-Cyprien"; with an absent destination or "None" it
    returns the list unchanged. *)
Theorem filter_passages_for_a_destination_spec :
  forall (W : World) (l : list Passage),
    (forall dest, dest <> "None" ->
       _filter_passages_for_a_destination l (Some dest)
       = filter (destination_matches dest) l)
    /\ (forall dest, dest <> "None" -> lower_respects_hyphens W ->
          _filter_passages_for_a_destination l (Some dest)
          = filter (spec_destination_matches dest) l)
    /\ _filter_passages_for_a_destination l None = l
    /\ _filter_passages_for_a_destination l (Some "None") = l
    /\ (forall t1 t2 line,
          @_filter_passages_for_a_destination (ok_world [])
            [ passage_at t1 line "Saint-Cyprien"; passage_at t2 line "Arènes" ]
            (Some "Saint Cyprien")
          = [ passage_at t1 line "Saint-Cyprien" ]).
Proof.
  intros W l.
  assert (E : forall dest, dest <> "None" ->
                _filter_passages_for_a_destination l (Some dest)
                = filter (destination_matches dest) l).
  { intros dest Hd. unfold _filter_passages_for_a_destination.
    apply String.eqb_neq in Hd. rewrite Hd. simpl.
    exact (fold_left_append_filter (destination_matches dest) l []). }
  split; [exact E | split; [|split; [|split]]].
  - intros dest Hd Hlow. rewrite (E dest Hd). apply filter_ext. intros p.
    unfold destination_matches, spec_destination_matches.
    now rewrite !Hlow.
  - reflexivity.
  - reflexivity.
  - intros [[s1 o1] d1] [[s2 o2] d2] line. reflexivity.
Qed.

Lemma filter_passages_for_a_destination_spec_witness :
  let l := [ passage_at example_instant "A" "Saint-Cyprien";
             passage_at example_instant "B" "Arènes";
             passage_at example_instant "14" "SAINT CYPRIEN" ] in
  @_filter_passages_for_a_destination (ok_world []) l (Some "saint-cyprien")
  = [ passage_at example_instant "A" "Saint-Cyprien";
      passage_at example_instant "14" "SAINT CYPRIEN" ]
  /\ @_filter_passages_for_a_destination (ok_world []) l (Some "saint-cyprien")
     = filter (@spec_destination_matches (ok_world []) "saint-cyprien") l.
Proof.
  intro l.
  destruct (filter_passages_for_a_destination_spec (ok_world []) l)
    as (H1 & H2 & _).
  split.
  - rewrite H1 by discriminate. reflexivity.
  - apply H2; [discriminate | exact ascii_lower_respects_hyphens].
Defined.

(** ** Relative-time formatting *)

Lemma append_assoc (a b c : string) : (a +++ b) +++ c = a +++ (b +++ c).
Proof. induction a as [|x a IH]; simpl; [reflexivity | now rewrite IH]. Qed.

Lemma timedelta_to_str_days (td : timedelta) :
  0 < days td -> _timedelta_to_str td = str_of_int (days td) +++ " jours".
Proof.
  intros H. unfold _timedelta_to_str, divmod.
  destruct (Z.gtb_spec (days td) 0); [reflexivity | lia].
Qed.

Lemma timedelta_to_str_hours_minutes (td : timedelta) :
  days td <= 0 ->
  _timedelta_to_str td
  = hours_minutes_str (seconds td / 3600) ((seconds td mod 3600) / 60).
Proof.
  intros H. unfold _timedelta_to_str, divmod, hours_minutes_str.
  destruct (Z.gtb_spec (days td) 0); [lia|].
  destruct (seconds td / 3600 >? 0); [|reflexivity].
  destruct ((seconds td mod 3600) / 60 >? 0); [|reflexivity].
  now rewrite append_assoc.
Qed.

(** C3.  The relative-time string follows the precedence days, hours (with
    the minutes appended exactly when positive), "moins d'une minute",
    minutes; 0 days 2 hours 15 minutes gives "2 heures et 15 minutes" and
    0 days 0 hours 0 minutes gives "moins d'une minute". *)
Theorem timedelta_to_str_precedence :
  forall td : timedelta,
    let h := seconds td / 3600 in
    let m := (seconds td mod 3600) / 60 in
    (days td > 0 ->
       _timedelta_to_str td = str_of_int (days td) +++ " jours")
    /\ (days td <= 0 -> h > 0 -> m > 0 ->
          _timedelta_to_str td
          = str_of_int h +++ " heures" +++ " et " +++ str_of_int m +++ " minutes")
    /\ (days td <= 0 -> h > 0 -> m <= 0 ->
          _timedelta_to_str td = str_of_int h +++ " heures")
    /\ (days td <= 0 -> h <= 0 -> m < 1 ->
          _timedelta_to_str td = "moins d'une minute")
    /\ (days td <= 0 -> h <= 0 -> m >= 1 ->
          _timedelta_to_str td = str_of_int m +++ " minutes")
    /\ (days td = 0 -> h = 2 -> m = 15 ->
          _timedelta_to_str td = "2 heures et 15 minutes")
    /\ (days td = 0 -> h = 0 -> m = 0 ->
          _timedelta_to_str td = "moins d'une minute").
Proof.
  intros td h m.
  assert (E : days td <= 0 -> _timedelta_to_str td = hours_minutes_str h m)
    by apply timedelta_to_str_hours_minutes.
  unfold hours_minutes_str in E.
  repeat split.
  - intros H. apply timedelta_to_str_days. lia.
  - intros Hd Hh Hm. rewrite E by lia.
    destruct (Z.gtb_spec h 0); [|lia]. destruct (Z.gtb_spec m 0); [|lia].
    reflexivity.
  - intros Hd Hh Hm. rewrite E by lia.
    destruct (Z.gtb_spec h 0); [|lia]. destruct (Z.gtb_spec m 0); [lia|].
    reflexivity.
  - intros Hd Hh Hm. rewrite E by lia.
    destruct (Z.gtb_spec h 0); [lia|]. destruct (Z.ltb_spec m 1); [|lia].
    reflexivity.
  - intros Hd Hh Hm. rewrite E by lia.
    destruct (Z.gtb_spec h 0); [lia|]. destruct (Z.ltb_spec m 1); [lia|].
    reflexivity.
  - intros Hd Hh Hm. rewrite E by lia. rewrite Hh, Hm. reflexivity.
  - intros Hd Hh Hm. rewrite E by lia. rewrite Hh, Hm. reflexivity.
Qed.

Lemma timedelta_to_str_precedence_witness :
  _timedelta_to_str (mk_timedelta 3 4000 0) = "3 jours"
  /\ _timedelta_to_str (mk_timedelta 0 8159 7) = "2 heures et 15 minutes"
  /\ _timedelta_to_str (mk_timedelta (-2) 7259 0) = "2 heures"
  /\ _timedelta_to_str (mk_timedelta 0 59 999999) = "moins d'une minute"
  /\ _timedelta_to_str (mk_timedelta 0 1320 0) = "22 minutes"
  /\ _timedelta_to_str (mk_timedelta 0 8100 0) = "2 heures et 15 minutes"
  /\ _timedelta_to_str (mk_timedelta 0 0 0) = "moins d'une minute".
Proof.
  pose proof (timedelta_to_str_precedence (mk_timedelta 3 4000 0)) as H1.
  pose proof (timedelta_to_str_precedence (mk_timedelta 0 8159 7)) as H2.
  pose proof (timedelta_to_str_precedence (mk_timedelta (-2) 7259 0)) as H3.
  pose proof (timedelta_to_str_precedence (mk_timedelta 0 59 999999)) as H4.
  pose proof (timedelta_to_str_precedence (mk_timedelta 0 1320 0)) as H5.
  pose proof (timedelta_to_str_precedence (mk_timedelta 0 8100 0)) as H6.
  pose proof (timedelta_to_str_precedence (mk_timedelta 0 0 0)) as H7.
  refine (conj _ (conj _ (conj _ (conj _ (conj _ (conj _ _)))))).
  - apply (proj1 H1). simpl. lia.
  - apply (proj1 (proj2 H2)); simpl; vm_compute; congruence.
  - apply (proj1 (proj2 (proj2 H3))); simpl; vm_compute; congruence.
  - apply (proj1 (proj2 (proj2 (proj2 H4)))); simpl; vm_compute; congruence.
  - apply (proj1 (proj2 (proj2 (proj2 (proj2 H5))))); simpl; vm_compute;
      congruence.
  - apply (proj1 (proj2 (proj2 (proj2 (proj2 (proj2 H6)))))); reflexivity.
  - apply (proj2 (proj2 (proj2 (proj2 (proj2 (proj2 H7)))))); reflexivity.
Defined.

(** ** Departures in the past *)

Lemma hours_minutes_str_checked :
  forallb
    (fun h =>
       forallb
         (fun m => no_sign_no_days (hours_minutes_str (Z.of_nat h) (Z.of_nat m)))
         (seq 0 60))
    (seq 0 24) = true.
Proof. vm_compute. reflexivity. Qed.

Lemma hours_minutes_str_unsigned (h m : Z) :
  0 <= h < 24 -> 0 <= m < 60 ->
  no_sign_no_days (hours_minutes_str h m) = true.
Proof.
  intros Hh Hm.
  pose proof hours_minutes_str_checked as C.
  rewrite forallb_forall in C.
  assert (Ih : In (Z.to_nat h) (seq 0 24)) by (apply in_seq; lia).
  assert (Im : In (Z.to_nat m) (seq 0 60)) by (apply in_seq; lia).
  specialize (C _ Ih). rewrite forallb_forall in C.
  specialize (C _ Im). now rewrite !Z2Nat.id in C by lia.
Qed.

Lemma timedelta_new_past_day (d s us : Z) :
  - us_per_day < (d * 86400 + s) * 1000000 + us < 0 ->
  timedelta_new d s us
  = mk_timedelta (-1)
      (((d * 86400 + s) * 1000000 + us + us_per_day) / 1000000)
      (((d * 86400 + s) * 1000000 + us + us_per_day) mod 1000000).
Proof.
  intros H. unfold timedelta_new.
  set (total := (d * 86400 + s) * 1000000 + us) in *.
  assert (Hq : -1 = total / us_per_day).
  { apply Z.div_unique_pos with (r := total + us_per_day); lia. }
  assert (Hr : total + us_per_day = total mod us_per_day).
  { apply Z.mod_unique_pos with (q := -1); lia. }
  now rewrite <- Hq, <- Hr.
Qed.

Lemma timedelta_new_within_day (d s us : Z) :
  0 <= (d * 86400 + s) * 1000000 + us < us_per_day ->
  timedelta_new d s us
  = mk_timedelta 0
      (((d * 86400 + s) * 1000000 + us) / 1000000)
      (((d * 86400 + s) * 1000000 + us) mod 1000000).
Proof.
  intros H. unfold timedelta_new.
  set (total := (d * 86400 + s) * 1000000 + us) in *.
  rewrite Z.div_small, Z.mod_small by lia. reflexivity.
Qed.

(** C9.  A duration strictly between minus one day and zero normalises to
    [days = -1] with a remainder-of-day [seconds] in [0, 86400); the days
    branch is skipped and the string is that of the duration plus one day,
    built from an hour count in [0, 23] and a minute count in [0, 59]: it
    holds no minus sign and no "jours".  Thirty minutes in the past gives
    "23 heures et 30 minutes", also through the constructor of [Passage]. *)
Theorem past_departure_reports_complement_of_day :
  (forall d s us : Z,
      - us_per_day < (d * 86400 + s) * 1000000 + us < 0 ->
      let td := timedelta_new d s us in
      days td = -1
      /\ 0 <= seconds td < 86400
      /\ _timedelta_to_str td = _timedelta_to_str (timedelta_new (d + 1) s us)
      /\ days (timedelta_new (d + 1) s us) = 0
      /\ (exists h m,
             0 <= h < 24 /\ 0 <= m < 60
             /\ _timedelta_to_str td = hours_minutes_str h m)
      /\ contains "-" (_timedelta_to_str td) = false
      /\ contains "jours" (_timedelta_to_str td) = false)
  /\ timedelta_new 0 (-1800) 0 = mk_timedelta (-1) 84600 0
  /\ _timedelta_to_str (timedelta_new 0 (-1800) 0) = "23 heures et 30 minutes"
  /\ (forall l dest,
         option_map timedelta_str
           (match fst (@Passage__init__ (ok_world [])
                         "2023-01-15 12:00:00" l dest []) with
            | inr p => Some p
            | inl _ => None
            end)
         = Some "23 heures et 30 minutes").
Proof.
  split; [|repeat split].
  intros d s us H td.
  set (total := (d * 86400 + s) * 1000000 + us) in *.
  assert (Hd : us_per_day = 86400 * 1000000) by reflexivity.
  assert (Etd : td = mk_timedelta (-1) ((total + us_per_day) / 1000000)
                                  ((total + us_per_day) mod 1000000))
    by (apply timedelta_new_past_day; exact H).
  assert (Etd' : timedelta_new (d + 1) s us
                 = mk_timedelta 0 ((total + us_per_day) / 1000000)
                                ((total + us_per_day) mod 1000000)).
  { replace (total + us_per_day)
      with (((d + 1) * 86400 + s) * 1000000 + us) by (unfold total; lia).
    apply timedelta_new_within_day. unfold total in H. lia. }
  assert (Hs : 0 <= (total + us_per_day) / 1000000 < 86400).
  { split; [apply Z.div_pos; lia | apply Z.div_lt_upper_bound; lia]. }
  assert (Estr : _timedelta_to_str td
                 = hours_minutes_str (seconds td / 3600)
                                     ((seconds td mod 3600) / 60)).
  { apply timedelta_to_str_hours_minutes. rewrite Etd. simpl. lia. }
  assert (Hh : 0 <= seconds td / 3600 < 24).
  { rewrite Etd. simpl.
    split; [apply Z.div_pos; lia | apply Z.div_lt_upper_bound; lia]. }
  assert (Hm : 0 <= (seconds td mod 3600) / 60 < 60).
  { pose proof (Z.mod_pos_bound (seconds td) 3600 ltac:(lia)).
    split; [apply Z.div_pos; lia | apply Z.div_lt_upper_bound; lia]. }
  pose proof (hours_minutes_str_unsigned Hh Hm) as Hu.
  unfold no_sign_no_days in Hu. apply andb_true_iff in Hu.
  destruct Hu as [Hu1 Hu2]. apply negb_true_iff in Hu1, Hu2.
  repeat split.
  - rewrite Etd. reflexivity.
  - rewrite Etd. simpl. lia.
  - rewrite Etd. simpl. lia.
  - rewrite Estr, Etd'.
    rewrite (timedelta_to_str_hours_minutes
               (mk_timedelta 0 ((total + us_per_day) / 1000000)
                             ((total + us_per_day) mod 1000000)))
      by (simpl; lia).
    rewrite Etd. reflexivity.
  - rewrite Etd'. reflexivity.
  - exists (seconds td / 3600), ((seconds td mod 3600) / 60). tauto.
  - now rewrite Estr.
  - now rewrite Estr.
Qed.

Lemma past_departure_reports_complement_of_day_witness :
  days (timedelta_new (-1) 86399 999999) = -1
  /\ _timedelta_to_str (timedelta_new 0 0 (-1)) = "23 heures et 59 minutes".
Proof.
  split.
  - apply (proj1 past_departure_reports_complement_of_day (-1) 86399 999999).
    vm_compute. split; reflexivity.
  - destruct (proj1 past_departure_reports_complement_of_day 0 0 (-1))
      as (_ & _ & E & _).
    + vm_compute. split; reflexivity.
    + rewrite E. reflexivity.
Defined.

(** ** Timestamps *)

Lemma prefix_append (s t : string) : String.prefix s (s +++ t) = true.
Proof.
  induction s as [|c s IH]; simpl; [now destruct t|].
  destruct (ascii_dec c c) as [_|N]; [exact IH | now elim N].
Qed.

Lemma contains_prefix (s t : string) :
  String.prefix s t = true -> contains s t = true.
Proof. destruct t; simpl; intros ->; reflexivity. Qed.

Lemma contains_append (a s b : string) : contains s (a +++ s +++ b) = true.
Proof.
  induction a as [|c a IH]; simpl.
  - apply contains_prefix, prefix_append.
  - rewrite IH. apply orb_true_r.
Qed.

Lemma contains_append_end (a s : string) : contains s (a +++ s) = true.
Proof.
  replace (a +++ s) with (a +++ s +++ "").
  - apply contains_append.
  - f_equal. induction s as [|c s IH]; simpl; [reflexivity | now rewrite IH].
Qed.

Lemma str_datetime_to_datetime_obj_tzinfo {W : World} (s fmt : string)
    (d : datetime) :
  _str_datetime_to_datetime_obj s fmt = inr d -> dt_tzinfo d <> None.
Proof.
  unfold _str_datetime_to_datetime_obj, localize.
  destruct (strptime s fmt) as [d0|]; [|discriminate].
  destruct (dt_tzinfo d0) eqn:E; [intros [= <-]; now rewrite E|].
  destruct (String.eqb _ _); [intros [= <-]; discriminate|].
  destruct (localize_overflows d0); intros [= <-]; discriminate.
Qed.

Lemma localize_paris (d : datetime) {W : World} :
  localize _TISSEO_TIMEZONE d
  = if localize_overflows d then inl (OverflowError "date value out of range")
    else inr (attach_zone _TISSEO_TIMEZONE d).
Proof. reflexivity. Qed.



(** ** Departure fetch *)

Lemma fetch_unfold {W : World} (id : string) (limit : Z)
    (from_date : option string) (tr : list event) :
  get_prochains_passages_for_stop_area_id id limit from_date tr
  = let url := stops_schedules_url id limit from_date in
    (match requests_get url with
     | inl msg => inl (RequestException msg)
     | inr r =>
         if status_code r =? 200
         then library DecodeError (json_departures (text r))
         else inl (ConnectionError
                     ("Status code " +++ str_of_int (status_code r)
                      +++ " for url " +++ url))
     end,
     tr ++ [EvHttpGet url]).
Proof.
  unfold get_prochains_passages_for_stop_area_id, bind, emit, lift, raise.
  simpl. destruct (requests_get _) as [msg|r]; simpl; [reflexivity|].
  destruct (status_code r =? 200); reflexivity.
Qed.

(** C7 (as amended).  When the response's status code is not 200 the
    fetch raises the [ConnectionError] whose message carries the status
    code and the request URL, whatever the body; when it is 200 the fetch
    raises no [ConnectionError] and its outcome is that of decoding the
    body.  Either way exactly one request is recorded. *)
Theorem fetch_status_check :
  forall (W : World) (id : string) (limit : Z) (from_date : option string)
         (r : response) (tr : list event),
    requests_get (stops_schedules_url id limit from_date) = inr r ->
    let url := stops_schedules_url id limit from_date in
    let e := ConnectionError ("Status code " +++ str_of_int (status_code r)
                              +++ " for url " +++ url) in
    (status_code r <> 200 ->
       get_prochains_passages_for_stop_area_id id limit from_date tr
       = (inl e, tr ++ [EvHttpGet url])
       /\ error_carries e (str_of_int (status_code r))
       /\ error_carries e url)
    /\ (status_code r = 200 ->
          get_prochains_passages_for_stop_area_id id limit from_date tr
          = (library DecodeError (json_departures (text r)),
             tr ++ [EvHttpGet url])
          /\ forall msg,
               fst (get_prochains_passages_for_stop_area_id
                      id limit from_date tr)
               <> inl (ConnectionError msg)).
Proof.
  intros W id limit from_date r tr Hr url e.
  subst e url. rewrite fetch_unfold. cbv zeta. rewrite Hr. split.
  - intros Hs. apply Z.eqb_neq in Hs. rewrite Hs. split; [reflexivity|].
    set (url := stops_schedules_url id limit from_date).
    unfold error_carries, exn_message. split.
    + apply (contains_append "Status code " (str_of_int (status_code r))).
    + assert (E : "Status code " +++ str_of_int (status_code r)
                  +++ " for url " +++ url
                  = (("Status code " +++ str_of_int (status_code r))
                     +++ " for url ") +++ url)
        by now rewrite !append_assoc.
      rewrite E. apply contains_append_end.
  - intros Hs. apply Z.eqb_eq in Hs. rewrite Hs. split; [reflexivity|].
    intros msg. simpl. destruct (json_departures (text r)); discriminate.
Qed.

Lemma fetch_status_check_witness :
  @get_prochains_passages_for_stop_area_id (failing_world 404 "Not Found")
    "1970324837184714" 15 None []
  = (inl (ConnectionError "Status code 404 for url https://api.tisseo.fr/v1/stops_schedules.json?stopAreaId=1970324837184714&key=k3y&number=15"),
     [EvHttpGet "https://api.tisseo.fr/v1/stops_schedules.json?stopAreaId=1970324837184714&key=k3y&number=15"])
  /\ @get_prochains_passages_for_stop_area_id (ok_world example_departures)
       "1970324837184714" 15 (Some "2023-01-15 12:00")
       [EvPrint "Plusieurs arrêts trouvés pour capitole"]
     = (inr example_departures,
        [EvPrint "Plusieurs arrêts trouvés pour capitole";
         EvHttpGet "https://api.tisseo.fr/v1/stops_schedules.json?stopAreaId=1970324837184714&key=k3y&number=15&datetime=2023-01-15 12:00"]).
Proof.
  split.
  - apply (proj1 (@fetch_status_check (failing_world 404 "Not Found")
                    "1970324837184714" 15 None (mk_response 404 "Not Found")
                    [] eq_refl)).
    discriminate.
  - apply (proj2 (@fetch_status_check (ok_world example_departures)
                    "1970324837184714" 15 (Some "2023-01-15 12:00")
                    (mk_response 200 "{...}")
                    [EvPrint "Plusieurs arrêts trouvés pour capitole"]
                    eq_refl)).
    reflexivity.
Defined.

(** C7 (as stated) fails: the error raised for a 503 response does not
    carry the response body, and it is the same error whatever the body;
    and a 200 response whose body does not decode raises. *)
Lemma fetch_error_carries_body_counterexample :
  (exists e,
      fst (@get_prochains_passages_for_stop_area_id
             (failing_world 503 "Service Unavailable")
             "1970324837184714" 15 None [])
      = inl e
      /\ e = ConnectionError "Status code 503 for url https://api.tisseo.fr/v1/stops_schedules.json?stopAreaId=1970324837184714&key=k3y&number=15"
      /\ ~ error_carries e "Service Unavailable"
      /\ fst (@get_prochains_passages_for_stop_area_id
                (failing_world 503 "Back in five minutes")
                "1970324837184714" 15 None [])
         = inl e)
  /\ fst (@get_prochains_passages_for_stop_area_id
            (failing_world 200 "<html></html>")
            "1970324837184714" 15 None [])
     = inl (DecodeError "Expecting value: line 1 column 1 (char 0)").
Proof.
  split; [|reflexivity].
  eexists. split; [reflexivity|]. split; [reflexivity|]. split; [|reflexivity].
  unfold error_carries. vm_compute. discriminate.
Qed.

(** ** The whole pipeline *)

Section Traces.
Context {W : World}.

Lemma good_ret {A} (a : A) : appends_without_KeyError (ret a).
Proof.
  intros tr. split; [exists []; simpl; now rewrite app_nil_r | discriminate].
Qed.

Lemma good_lift {A} (r : exn + A) :
  (forall msg, r <> inl (KeyError msg)) -> appends_without_KeyError (lift r).
Proof.
  intros H tr. split; [exists []; simpl; now rewrite app_nil_r | exact H].
Qed.

Lemma good_raise {A} (e : exn) :
  (forall msg, e <> KeyError msg) -> appends_without_KeyError (@raise A e).
Proof.
  intros H tr. split; [exists []; simpl; now rewrite app_nil_r|].
  intros msg [= E]. exact (H msg E).
Qed.

Lemma good_bind {A B} (m : M A) (k : A -> M B) :
  appends_without_KeyError m ->
  (forall a, appends_without_KeyError (k a)) ->
  appends_without_KeyError (bind m k).
Proof.
  intros Hm Hk tr. unfold bind.
  destruct (Hm tr) as [[s1 E1] N1].
  destruct (m tr) as [[e|a] tr1]; simpl in *; subst tr1.
  - split; [now exists s1|]. intros msg [= E]. exact (N1 msg (f_equal _ E)).
  - destruct (Hk a (tr ++ s1)) as [[s2 E2] N2].
    split; [|exact N2]. exists (s1 ++ s2). now rewrite E2, app_assoc.
Qed.

Lemma good_for_each {A B} (body : B -> A -> M B) (l : list A) :
  (forall acc x, appends_without_KeyError (body acc x)) ->
  forall acc, appends_without_KeyError (for_each body l acc).
Proof.
  intros Hb. induction l as [|x l IH]; intros acc; simpl.
  - apply good_ret.
  - apply good_bind; [apply Hb | exact IH].
Qed.

Lemma good_first_item {A} (l : list A) :
  appends_without_KeyError (lift (first_item l)).
Proof. apply good_lift. destruct l; discriminate. Qed.

Lemma good_Passage__init__ (date ligne dest : string) :
  appends_without_KeyError (Passage__init__ date ligne dest).
Proof.
  unfold Passage__init__. apply good_bind.
  - apply good_lift. unfold _str_datetime_to_datetime_obj, localize.
    intros msg.
    repeat match goal with
           | |- context [match ?x with _ => _ end] => destruct x
           | |- context [if ?x then _ else _] => destruct x
           end; discriminate.
  - intros d. apply good_bind; [|intros; apply good_ret].
    unfold _get_timedelta. apply good_bind.
    + intros tr. split; [now exists [EvNow] | discriminate].
    + intros now. apply good_bind.
      * apply good_lift. unfold localize. intros msg.
        repeat match goal with
               | |- context [match ?x with _ => _ end] => destruct x
               | |- context [if ?x then _ else _] => destruct x
               end; discriminate.
      * intros now'. apply good_lift. unfold datetime_sub. intros msg.
        repeat match goal with
               | |- context [match ?x with _ => _ end] => destruct x
               end; discriminate.
Qed.

Lemma good_after_fetch (line dest : option string)
    (json_prochains_passages : list raw_departure) :
  appends_without_KeyError
    (bind
       (if len json_prochains_passages <? 1 then ret None
        else
          bind
            (for_each
               (fun liste passage =>
                  bind (lift (first_item (rd_destination passage)))
                    (fun dest0 =>
                       bind (Passage__init__ (dateTime passage)
                               (shortName (rd_line passage)) (dest_name dest0))
                         (fun p => ret (liste ++ [p]))))
               json_prochains_passages [])
            (fun l => ret (Some (_filter_passages l line dest))))
       (fun liste_prochains_passages =>
          match liste_prochains_passages with
          | Some l => ret l
          | None => raise (UnboundLocalError "liste_prochains_passages")
          end)).
Proof.
  apply good_bind.
  - destruct (len json_prochains_passages <? 1); [apply good_ret|].
    apply good_bind; [|intros; apply good_ret].
    apply good_for_each. intros acc x.
    apply good_bind; [apply good_first_item|]. intros d0.
    apply good_bind; [apply good_Passage__init__ | intros; apply good_ret].
  - intros [l|]; [apply good_ret | apply good_raise; discriminate].
Qed.

(** What [prochains_passages] does once the stop is resolved to [a]. *)
Lemma prochains_passages_resolved (name : string) (dest line : option string)
    (a : stop_area) (rest : list stop_area) (tr : list event) :
  get_stop_area_by_name name = a :: rest ->
  let tr1 := match rest with
             | [] => tr
             | _ => tr ++ [EvPrint ("Plusieurs arrêts trouvés pour " +++ name)]
             end in
  prochains_passages name dest line tr
  = bind (get_prochains_passages_for_stop_area_id (sa_id a) 15 None)
      (fun json_prochains_passages =>
         bind
           (if len json_prochains_passages <? 1 then ret None
            else
              bind
                (for_each
                   (fun liste passage =>
                      bind (lift (first_item (rd_destination passage)))
                        (fun dest0 =>
                           bind (Passage__init__ (dateTime passage)
                                   (shortName (rd_line passage))
                                   (dest_name dest0))
                             (fun p => ret (liste ++ [p]))))
                   json_prochains_passages [])
                (fun l => ret (Some (_filter_passages l line dest))))
           (fun liste_prochains_passages =>
              match liste_prochains_passages with
              | Some l => ret l
              | None => raise (UnboundLocalError "liste_prochains_passages")
              end))
      tr1.
Proof.
  intros H tr1. unfold prochains_passages. rewrite H.
  assert (L1 : (len (a :: rest) <? 1) = false)
    by (apply Z.ltb_ge; unfold len; simpl List.length; lia).
  rewrite L1. destruct rest as [|b rest].
  - reflexivity.
  - assert (L2 : (len (a :: b :: rest) >? 1) = true)
      by (apply Z.gtb_lt; unfold len; simpl List.length; lia).
    rewrite L2. reflexivity.
Qed.

End Traces.

Lemma fetch_then_appends {W : World} {A} (id : string)
    (k : list raw_departure -> M A) (tr : list event) :
  (forall json, appends_without_KeyError (k json)) ->
  (exists suffix,
      snd (bind (get_prochains_passages_for_stop_area_id id 15 None) k tr)
      = tr ++ EvHttpGet (stops_schedules_url id 15 None) :: suffix)
  /\ (forall msg,
        fst (bind (get_prochains_passages_for_stop_area_id id 15 None) k tr)
        <> inl (KeyError msg)).
Proof.
  intros Hk. unfold bind. rewrite fetch_unfold. cbv zeta.
  set (url := stops_schedules_url id 15 None).
  match goal with
  | |- context [match (?r, _) with _ => _ end] => destruct r as [e|json] eqn:E
  end.
  - split; [now exists []|]. simpl. intros msg [= N]. subst e.
    destruct (requests_get url) as [m|r]; [discriminate|].
    destruct (status_code r =? 200); [|discriminate].
    destruct (json_departures (text r)); discriminate.
  - destruct (Hk json (tr ++ [EvHttpGet url])) as [[suffix Es] N].
    split; [|exact N]. exists suffix. rewrite Es, <- app_assoc. reflexivity.
Qed.

(** C6.  When no directory entry matches, [prochains_passages] raises
    [KeyError] ("Arrêt ... inconnu") and the trace is left as it was: no
    request is issued.  When several match, it prints the warning, then
    issues the request for the first match in directory order, and does
    not end with [KeyError]. *)
Theorem prochains_passages_stop_resolution :
  forall (W : World) (name : string) (dest line : option string)
         (tr : list event),
    (get_stop_area_by_name name = [] ->
       prochains_passages name dest line tr
       = (inl (KeyError ("Arrêt " +++ name +++ " inconnu")), tr))
    /\ (forall a b rest,
          get_stop_area_by_name name = a :: b :: rest ->
          (exists suffix,
              snd (prochains_passages name dest line tr)
              = tr ++ EvPrint ("Plusieurs arrêts trouvés pour " +++ name)
                   :: EvHttpGet (stops_schedules_url (sa_id a) 15 None)
                   :: suffix)
          /\ (forall msg,
                fst (prochains_passages name dest line tr)
                <> inl (KeyError msg))).
Proof.
  intros W name dest line tr. split.
  - intros H. unfold prochains_passages. rewrite H. reflexivity.
  - intros a b rest H.
    rewrite (prochains_passages_resolved name dest line tr H). cbv zeta.
    destruct (@fetch_then_appends W _ (sa_id a) _
                (tr ++ [EvPrint ("Plusieurs arrêts trouvés pour " +++ name)])
                (good_after_fetch line dest)) as [[suffix Es] N].
    split; [|exact N].
    exists suffix. rewrite Es, <- app_assoc. reflexivity.
Qed.

Lemma prochains_passages_stop_resolution_witness :
  @prochains_passages (ok_world example_departures) "Esquirol" None None []
  = (inl (KeyError "Arrêt Esquirol inconnu"), [])
  /\ (exists suffix,
         snd (@prochains_passages (ok_world example_departures) "capitole"
                None (Some "L6") [])
         = [] ++ EvPrint "Plusieurs arrêts trouvés pour capitole"
              :: EvHttpGet
                   (@stops_schedules_url (ok_world example_departures)
                      "1970324837184714" 15 None)
              :: suffix).
Proof.
  split.
  - apply (proj1 (prochains_passages_stop_resolution
                    (ok_world example_departures) "Esquirol" None None [])).
    reflexivity.
  - apply (proj2 (prochains_passages_stop_resolution
                    (ok_world example_departures) "capitole" None (Some "L6")
                    [])
                 (mk_stop_area "Capitole" "1970324837184714")
                 (mk_stop_area "CAPITOLE" "1970324837190000") []).
    reflexivity.
Defined.

(** C1 fails on the code.  For a resolved stop whose fetch returns no
    departure, [prochains_passages] ends with [UnboundLocalError]: the
    branch for the empty answer binds [p] and leaves
    [liste_prochains_passages], which the [return] reads, unbound. *)
Theorem prochains_passages_no_departure_raises :
  forall (W : World) (name : string) (dest line : option string)
         (tr : list event) (a : stop_area) (rest : list stop_area)
         (r : response),
    get_stop_area_by_name name = a :: rest ->
    requests_get (stops_schedules_url (sa_id a) 15 None) = inr r ->
    status_code r = 200 ->
    json_departures (text r) = inr [] ->
    fst (prochains_passages name dest line tr)
    = inl (UnboundLocalError "liste_prochains_passages").
Proof.
  intros W name dest line tr a rest r Hn Hr Hs Hj.
  rewrite (prochains_passages_resolved name dest line tr Hn). cbv zeta.
  unfold bind at 1. rewrite fetch_unfold. cbv zeta.
  rewrite Hr, Hs, Hj. reflexivity.
Qed.

Lemma prochains_passages_no_departure_raises_witness :
  fst (@prochains_passages (ok_world []) "jean jaurès" None None [])
  = inl (UnboundLocalError "liste_prochains_passages").
Proof.
  apply (@prochains_passages_no_departure_raises (ok_world []) "jean jaurès"
           None None [] (mk_stop_area "Jean Jaurès" "1970324837185012") []
           (mk_response 200 "{...}"));
    reflexivity.
Defined.

(** * Further properties of the module *)

(** ** The filters *)

Lemma filter_all {A} (f : A -> bool) (l : list A) :
  (forall x, In x l -> f x = true) -> filter f l = l.
Proof.
  induction l as [|x l IH]; simpl; intros H; [reflexivity|].
  rewrite (H x (or_introl eq_refl)), IH; [reflexivity|].
  intros y Hy. apply H. now right.
Qed.

Lemma one_line_as_filter {W : World} (l : list Passage) (line : option string) :
  _filter_passages_for_one_line l line = filter (line_selected line) l.
Proof.
  unfold _filter_passages_for_one_line, line_selected.
  destruct line as [s|]; [destruct (String.eqb s "None")|]; simpl.
  - symmetry. now apply filter_all.
  - exact (fold_left_append_filter (line_matches s) l []).
  - symmetry. now apply filter_all.
Qed.

Lemma a_destination_as_filter {W : World} (l : list Passage)
    (dest : option string) :
  _filter_passages_for_a_destination l dest
  = filter (destination_selected dest) l.
Proof.
  unfold _filter_passages_for_a_destination, destination_selected.
  destruct dest as [s|]; [destruct (String.eqb s "None")|]; simpl.
  - symmetry. now apply filter_all.
  - exact (fold_left_append_filter (destination_matches s) l []).
  - symmetry. now apply filter_all.
Qed.

Lemma filter_passages_as_filter {W : World} (l : list Passage)
    (line dest : option string) :
  _filter_passages l line dest
  = keep_first String.eqb ligne_destination
      (filter (fun p => line_selected line p && destination_selected dest p) l).
Proof.
  rewrite filter_passages_unfold, one_line_as_filter, a_destination_as_filter.
  now rewrite filter_filter.
Qed.

Lemma NoDup_map_filter {A B} (key : A -> B) (f : A -> bool) (l : list A) :
  NoDup (map key l) -> NoDup (map key (filter f l)).
Proof.
  induction l as [|x l IH]; simpl; intros H; [constructor|].
  inversion H as [|? ? Hx Hl]; subst.
  destruct (f x); simpl; [|now apply IH].
  constructor; [|now apply IH].
  intros Hin. apply Hx. apply in_map_iff in Hin.
  destruct Hin as (y & Ey & Hy). apply filter_In in Hy.
  apply in_map_iff. exists y. tauto.
Qed.

Lemma keep_first_NoDup {A} (key : A -> string) (l : list A) :
  NoDup (map key (keep_first String.eqb key l)).
Proof.
  induction l as [|x l IH]; simpl; constructor.
  - intros Hin. apply in_map_iff in Hin. destruct Hin as (y & Ey & Hy).
    apply filter_In in Hy. destruct Hy as [_ Hy].
    rewrite Ey, String.eqb_refl in Hy. discriminate.
  - now apply NoDup_map_filter.
Qed.

Lemma keep_first_covers {A} (key : A -> string) (l : list A) (p : A) :
  In p l ->
  exists q, In q (keep_first String.eqb key l) /\ key q = key p.
Proof.
  induction l as [|x l IH]; simpl; [tauto|].
  intros [->|H]; [exists p; tauto|].
  destruct (IH H) as (q & Hq & Eq).
  destruct (String.eqb (key q) (key x)) eqn:E.
  - apply String.eqb_eq in E. exists x. split; [now left | congruence].
  - exists q. split; [|exact Eq]. right. apply filter_In. now rewrite E.
Qed.

Lemma keep_first_NoDup_id {A} (key : A -> string) (l : list A) :
  NoDup (map key l) -> keep_first String.eqb key l = l.
Proof.
  induction l as [|x l IH]; simpl; intros H; [reflexivity|].
  inversion H as [|? ? Hx Hl]; subst. rewrite (IH Hl). f_equal.
  apply filter_all. intros y Hy. apply negb_true_iff, String.eqb_neq.
  intros E. apply Hx. rewrite <- E. now apply in_map.
Qed.

Lemma keep_first_filter {A} (key : A -> string) (f : A -> bool) (l : list A) :
  (forall p q, In p l -> In q l -> key p = key q -> f p = f q) ->
  keep_first String.eqb key (filter f l)
  = filter f (keep_first String.eqb key l).
Proof.
  induction l as [|x l IH]; simpl; intros H; [reflexivity|].
  assert (IH' : keep_first String.eqb key (filter f l)
                = filter f (keep_first String.eqb key l)).
  { apply IH. intros p q Hp Hq. apply H; now right. }
  destruct (f x) eqn:Fx; simpl.
  - rewrite IH', !filter_filter. f_equal. apply filter_ext.
    intros y. apply andb_comm.
  - rewrite IH', filter_filter. apply filter_ext_in. intros y Hy.
    destruct (String.eqb (key y) (key x)) eqn:E; simpl; [|reflexivity].
    apply String.eqb_eq in E.
    rewrite (H y x); [now rewrite Fx| |now left|exact E].
    right. eapply keep_first_incl, Hy.
Qed.

(** X1.  With a line that is neither absent nor the string "None",
    [_filter_passages_for_one_line] keeps exactly, and in order, the
    passages whose line equals the argument once both are lower-cased
    (hyphens are not touched, unlike for destinations); with an absent line
    or "None" it returns the list unchanged. *)
Theorem filter_passages_for_one_line_spec :
  forall (W : World) (l : list Passage),
    (forall line, line <> "None" ->
       _filter_passages_for_one_line l (Some line)
       = filter (line_matches line) l)
    /\ (forall line p, line <> "None" ->
          (In p (_filter_passages_for_one_line l (Some line))
           <-> In p l /\ lower (ligne p) = lower line))
    /\ _filter_passages_for_one_line l None = l
    /\ _filter_passages_for_one_line l (Some "None") = l.
Proof.
  intros W l.
  assert (E : forall line, line <> "None" ->
                _filter_passages_for_one_line l (Some line)
                = filter (line_matches line) l).
  { intros line H. rewrite one_line_as_filter. unfold line_selected.
    apply String.eqb_neq in H. now rewrite H. }
  split; [exact E | split; [|split; reflexivity]].
  intros line p H. rewrite (E line H), filter_In.
  unfold line_matches. now rewrite String.eqb_eq.
Qed.

Lemma filter_passages_for_one_line_spec_witness :
  @_filter_passages_for_one_line (ok_world [])
    [ passage_at example_instant "L6" "Ramonville";
      passage_at example_instant "109" "Labège";
      passage_at example_instant "l6" "Castanet";
      passage_at example_instant "L-6" "Castanet" ]
    (Some "l6")
  = [ passage_at example_instant "L6" "Ramonville";
      passage_at example_instant "l6" "Castanet" ].
Proof.
  rewrite (proj1 (filter_passages_for_one_line_spec (ok_world []) _) "l6");
    [reflexivity | discriminate].
Defined.

(** X2.  Whatever the arguments, [_filter_passages] returns passages of its
    input that pass both the line and the destination argument, no two of
    them with the same key, and every passage of the input that passes
    both arguments has its key among those of the result. *)
Theorem filter_passages_sound_and_complete :
  forall (W : World) (l : list Passage) (line dest : option string),
    NoDup (map ligne_destination (_filter_passages l line dest))
    /\ (forall p, In p (_filter_passages l line dest) ->
          In p l /\ line_selected line p = true
          /\ destination_selected dest p = true)
    /\ (forall p, In p l -> line_selected line p = true ->
          destination_selected dest p = true ->
          exists q, In q (_filter_passages l line dest)
                    /\ ligne_destination q = ligne_destination p).
Proof.
  intros W l line dest. rewrite filter_passages_as_filter. split; [|split].
  - apply keep_first_NoDup.
  - intros p Hp. apply keep_first_incl, filter_In in Hp.
    rewrite andb_true_iff in Hp. tauto.
  - intros p Hp Hl Hd. apply keep_first_covers, filter_In.
    now rewrite Hl, Hd.
Qed.

Lemma filter_passages_sound_and_complete_witness :
  exists q,
    In q (@_filter_passages (ok_world [])
            [ passage_at example_instant "L6" "Ramonville";
              passage_at ("2023-01-15 13:15:00",
                          mk_datetime 2023 1 15 13 15 0 0 None,
                          mk_timedelta 0 6300 0) "L6" "Ramonville" ]
            (Some "l6") None)
    /\ ligne_destination q = "L6 : Ramonville".
Proof.
  apply (proj2 (proj2 (filter_passages_sound_and_complete (ok_world [])
                         [ passage_at example_instant "L6" "Ramonville";
                           passage_at ("2023-01-15 13:15:00",
                                       mk_datetime 2023 1 15 13 15 0 0 None,
                                       mk_timedelta 0 6300 0)
                                      "L6" "Ramonville" ]
                         (Some "l6") None))
               (passage_at ("2023-01-15 13:15:00",
                            mk_datetime 2023 1 15 13 15 0 0 None,
                            mk_timedelta 0 6300 0) "L6" "Ramonville"));
    [simpl; tauto | reflexivity | reflexivity].
Defined.

(** X3.  On a list whose equal keys only come from equal (line,
    destination) pairs, filtering then deduplicating gives the same as
    deduplicating the whole list and then selecting by line and
    destination. *)
Theorem filter_passages_commutes_with_selection :
  forall (W : World) (l : list Passage) (line dest : option string),
    (forall p q, In p l -> In q l ->
                 ligne_destination p = ligne_destination q ->
                 line_destination_pair p = line_destination_pair q) ->
    _filter_passages l line dest
    = filter (fun p => line_selected line p && destination_selected dest p)
             (_filter_passages l None None).
Proof.
  intros W l line dest Hinj.
  rewrite (filter_passages_as_filter l line dest).
  rewrite (filter_passages_as_filter l None None). simpl.
  rewrite (filter_all (fun _ => true) l) by reflexivity.
  apply keep_first_filter. intros p q Hp Hq E.
  pose proof (Hinj p q Hp Hq E) as Hpq. unfold line_destination_pair in Hpq.
  injection Hpq as Hl Hd.
  unfold line_selected, destination_selected, line_matches,
    destination_matches. now rewrite Hl, Hd.
Qed.

Lemma filter_passages_commutes_with_selection_witness :
  let l := [ passage_at example_instant "L6" "Ramonville";
             passage_at example_instant "109" "Labège";
             passage_at example_instant "L6" "Ramonville";
             passage_at example_instant "L6" "Castanet" ] in
  @_filter_passages (ok_world []) l (Some "l6") (Some "None")
  = filter (fun p => @line_selected (ok_world []) (Some "l6") p
                     && @destination_selected (ok_world []) (Some "None") p)
           (@_filter_passages (ok_world []) l None None).
Proof.
  intro l.
  apply (filter_passages_commutes_with_selection (ok_world []) l).
  intros p q [<-|[<-|[<-|[<-|[]]]]] [<-|[<-|[<-|[<-|[]]]]]; simpl; intros E;
    first [reflexivity | discriminate E].
Defined.

(** X4.  [_filter_passages] is idempotent: filtering its own result with
    the same arguments changes nothing. *)
Theorem filter_passages_idempotent :
  forall (W : World) (l : list Passage) (line dest : option string),
    _filter_passages (_filter_passages l line dest) line dest
    = _filter_passages l line dest.
Proof.
  intros W l line dest.
  rewrite (filter_passages_as_filter (_filter_passages l line dest)).
  rewrite filter_all.
  - apply keep_first_NoDup_id. rewrite filter_passages_as_filter.
    apply keep_first_NoDup.
  - intros p Hp. rewrite filter_passages_as_filter in Hp.
    apply keep_first_incl, filter_In in Hp. tauto.
Qed.

(** ** Traces *)

Lemma clock_reads_app (tr1 tr2 : list event) :
  clock_reads (tr1 ++ tr2) = (clock_reads tr1 + clock_reads tr2)%nat.
Proof.
  induction tr1 as [|[| |] tr1 IH]; simpl; try exact IH; [reflexivity|].
  now rewrite IH.
Qed.

Lemma count_requests_app (tr1 tr2 : list event) :
  count_requests (tr1 ++ tr2) = (count_requests tr1 + count_requests tr2)%nat.
Proof.
  induction tr1 as [|[| |] tr1 IH]; simpl; try exact IH; [reflexivity|].
  now rewrite IH.
Qed.

Lemma count_warnings_app (tr1 tr2 : list event) :
  count_warnings (tr1 ++ tr2) = (count_warnings tr1 + count_warnings tr2)%nat.
Proof.
  induction tr1 as [|[| |] tr1 IH]; simpl; try exact IH; [reflexivity|].
  now rewrite IH.
Qed.

Lemma counts_repeat_EvNow (n : nat) :
  clock_reads (repeat EvNow n) = n
  /\ count_requests (repeat EvNow n) = O
  /\ count_warnings (repeat EvNow n) = O.
Proof. induction n as [|n (H1 & H2 & H3)]; simpl; auto. Qed.

Lemma aware_now_tzinfo {W : World} (now : datetime) :
  dt_tzinfo (aware_now now) <> None.
Proof.
  unfold aware_now. destruct (dt_tzinfo now) eqn:E; [now rewrite E|].
  discriminate.
Qed.

Lemma Passage__init__unfold {W : World} (d l dest : string) (tr : list event) :
  Passage__init__ d l dest tr
  = match _str_datetime_to_datetime_obj d _DEFAULT_DATE_FORMAT with
    | inl e => (inl e, tr)
    | inr date_obj =>
        (match datetime_sub date_obj (aware_now (clock (clock_reads tr))) with
         | inl e => inl e
         | inr td => inr (passage_at (d, date_obj, td) l dest)
         end,
         tr ++ [EvNow])
    end.
Proof.
  unfold Passage__init__, bind, lift, _get_timedelta, datetime_now, bind, lift,
    ret, aware_now.
  destruct (_str_datetime_to_datetime_obj d _DEFAULT_DATE_FORMAT);
    [reflexivity|].
  destruct (dt_tzinfo (clock (clock_reads tr))); simpl;
    destruct (datetime_sub _ _); reflexivity.
Qed.

Lemma passages_loop_body_step {W : World} (liste : list Passage)
    (passage : raw_departure) (tr : list event) :
  match passage_of_departure (clock (clock_reads tr)) passage with
  | inr p => passages_loop_body liste passage tr
             = (inr (liste ++ [p]), tr ++ [EvNow])
  | inl e => fst (passages_loop_body liste passage tr) = inl e
             /\ exists k, snd (passages_loop_body liste passage tr)
                          = tr ++ repeat EvNow k
  end.
Proof.
  unfold passage_of_departure, passages_loop_body, bind, lift, ret.
  destruct (first_item (rd_destination passage)) as [e|dest0].
  { split; [reflexivity | exists O; simpl; now rewrite app_nil_r]. }
  rewrite Passage__init__unfold.
  destruct (_str_datetime_to_datetime_obj (dateTime passage)
              _DEFAULT_DATE_FORMAT) as [e|date_obj].
  { split; [reflexivity | exists O; simpl; now rewrite app_nil_r]. }
  destruct (datetime_sub date_obj (aware_now (clock (clock_reads tr))))
    as [e|td]; [|reflexivity].
  split; [reflexivity | now exists 1%nat].
Qed.

Lemma passages_loop_refines {W : World} (deps : list raw_departure) :
  forall (acc : list Passage) (tr : list event),
    fst (for_each passages_loop_body deps acc tr)
    = match build_passages (clock_reads tr) deps with
      | inl e => inl e
      | inr ps => inr (acc ++ ps)
      end
    /\ exists k,
         snd (for_each passages_loop_body deps acc tr) = tr ++ repeat EvNow k
         /\ (forall ps, build_passages (clock_reads tr) deps = inr ps ->
                        k = List.length deps).
Proof.
  induction deps as [|dep deps IH]; intros acc tr; simpl.
  - split; [now rewrite app_nil_r|]. exists O. simpl.
    split; [now rewrite app_nil_r | reflexivity].
  - unfold bind at 1 2.
    pose proof (passages_loop_body_step acc dep tr) as Hs.
    destruct (passage_of_departure (clock (clock_reads tr)) dep) as [e|p].
    + destruct Hs as [Hf [k Hk]].
      destruct (passages_loop_body acc dep tr) as [[e'|x] tr1];
        simpl in *; [|discriminate].
      split; [exact Hf|]. exists k. split; [exact Hk | discriminate].
    + rewrite Hs.
      destruct (IH (acc ++ [p]) (tr ++ [EvNow])) as [Hf [k [Hk Hlen]]].
      rewrite clock_reads_app in Hf, Hlen. simpl in Hf, Hlen.
      rewrite Nat.add_1_r in Hf, Hlen.
      split.
      * rewrite Hf. destruct (build_passages (S (clock_reads tr)) deps);
          [reflexivity|]. now rewrite <- app_assoc.
      * exists (S k). split.
        -- rewrite Hk, <- app_assoc. reflexivity.
        -- intros ps Hps.
           destruct (build_passages (S (clock_reads tr)) deps) as [e|ps'];
             [discriminate|]. f_equal. now apply (Hlen ps').
Qed.

(** What [prochains_passages] does once the stop is resolved and the
    answer decoded. *)
Lemma prochains_passages_fetched {W : World} (name : string)
    (dest line : option string) (a : stop_area) (rest : list stop_area)
    (r : response) (deps : list raw_departure) (tr : list event) :
  get_stop_area_by_name name = a :: rest ->
  requests_get (stops_schedules_url (sa_id a) 15 None) = inr r ->
  status_code r = 200 ->
  json_departures (text r) = inr deps ->
  deps <> [] ->
  fst (prochains_passages name dest line tr)
  = match build_passages (clock_reads tr) deps with
    | inl e => inl e
    | inr ps => inr (_filter_passages ps line dest)
    end
  /\ exists k,
       snd (prochains_passages name dest line tr)
       = (match rest with
          | [] => tr
          | _ => tr ++ [EvPrint ("Plusieurs arrêts trouvés pour " +++ name)]
          end)
         ++ EvHttpGet (stops_schedules_url (sa_id a) 15 None)
         :: repeat EvNow k
       /\ (forall ps, build_passages (clock_reads tr) deps = inr ps ->
                      k = List.length deps).
Proof.
  intros Hn Hr Hs Hj Hd.
  rewrite (prochains_passages_resolved name dest line tr Hn). cbv zeta.
  set (tr1 := match rest with
              | [] => tr
              | _ => tr ++ [EvPrint ("Plusieurs arrêts trouvés pour " +++ name)]
              end).
  assert (Hc : clock_reads tr1 = clock_reads tr).
  { unfold tr1. destruct rest; [reflexivity|].
    rewrite clock_reads_app. simpl. apply Nat.add_0_r. }
  set (url := stops_schedules_url (sa_id a) 15 None) in *.
  match goal with
  | |- context [bind (get_prochains_passages_for_stop_area_id _ _ _) ?K tr1] =>
      assert (E : bind (get_prochains_passages_for_stop_area_id
                          (sa_id a) 15 None) K tr1
                  = K deps (tr1 ++ [EvHttpGet url]))
  end.
  { unfold bind at 1. rewrite fetch_unfold. cbv zeta. fold url.
    rewrite Hr, Hs, Hj. reflexivity. }
  rewrite E. clear E.
  assert (L : (len deps <? 1) = false).
  { apply Z.ltb_ge. unfold len. destruct deps; [congruence|].
    simpl List.length. lia. }
  rewrite L. unfold bind.
  destruct (passages_loop_refines deps [] (tr1 ++ [EvHttpGet url]))
    as [Hf [k [Hk Hlen]]].
  rewrite clock_reads_app in Hf, Hlen. simpl in Hf, Hlen.
  rewrite Nat.add_0_r, Hc in Hf, Hlen.
  match goal with
  | |- context [for_each ?f deps []] =>
      change f with (@passages_loop_body W)
  end.
  destruct (for_each passages_loop_body deps [] (tr1 ++ [EvHttpGet url]))
    as [[e|l] tr2]; simpl in Hf, Hk; subst tr2.
  - split; [|exists k; split; [now rewrite <- app_assoc | exact Hlen]].
    simpl. destruct (build_passages (clock_reads tr) deps);
      [exact Hf | discriminate].
  - split; [|exists k; split; [simpl; now rewrite <- app_assoc | exact Hlen]].
    simpl. destruct (build_passages (clock_reads tr) deps) as [e|ps];
      [discriminate|]. now injection Hf as ->.
Qed.

Lemma passage_of_departure_well_formed {W : World} (now : datetime)
    (dep : raw_departure) :
  well_formed_departure dep ->
  exists p,
    passage_of_departure now dep = inr p
    /\ date_str p = dateTime dep
    /\ ligne p = shortName (rd_line dep)
    /\ Some (destination p) = first_destination_name dep
    /\ ligne_destination p = ligne p +++ " : " +++ destination p
    /\ timedelta_str p = _timedelta_to_str (p_timedelta p)
    /\ dt_tzinfo (date_obj p) <> None.
Proof.
  intros [Hdest (d & Hdate & Hok)].
  unfold passage_of_departure, first_destination_name.
  destruct (rd_destination dep) as [|dest0 ?]; [congruence|]. simpl.
  destruct (_str_datetime_to_datetime_obj (dateTime dep) _DEFAULT_DATE_FORMAT)
    as [e|date_obj] eqn:E.
  { unfold _str_datetime_to_datetime_obj in E. rewrite Hdate in E.
    destruct (dt_tzinfo d); [discriminate|].
    rewrite localize_paris, (Hok eq_refl) in E. discriminate. }
  pose proof (str_datetime_to_datetime_obj_tzinfo _ _ E) as Ha.
  pose proof (aware_now_tzinfo now) as Hb.
  unfold datetime_sub.
  destruct (dt_tzinfo date_obj) as [ta|] eqn:Ea; [|congruence].
  destruct (dt_tzinfo (aware_now now)) as [tb|]; [|congruence].
  destruct (utcoffset ta =? utcoffset tb);
    (eexists; split; [reflexivity|]; simpl; repeat split; congruence).
Qed.

Lemma build_passages_well_formed {W : World} (deps : list raw_departure) :
  Forall well_formed_departure deps ->
  forall n,
  exists ps,
    build_passages n deps = inr ps
    /\ map date_str ps = map dateTime deps
    /\ map ligne ps = map (fun d => shortName (rd_line d)) deps
    /\ map (fun p => Some (destination p)) ps
       = map first_destination_name deps
    /\ Forall (fun p =>
                 ligne_destination p = ligne p +++ " : " +++ destination p
                 /\ timedelta_str p = _timedelta_to_str (p_timedelta p)
                 /\ dt_tzinfo (date_obj p) <> None) ps.
Proof.
  induction 1 as [|dep deps Hw _ IH]; intros n; simpl.
  - exists []. repeat split; constructor.
  - destruct (passage_of_departure_well_formed (clock n) Hw)
      as (p & Ep & H1 & H2 & H3 & H4).
    destruct (IH (S n)) as (ps & Eps & I1 & I2 & I3 & I4).
    exists (p :: ps). rewrite Ep, Eps. simpl.
    rewrite H1, H2, H3, I1, I2, I3. repeat split. now constructor.
Qed.

Lemma build_passages_stops {W : World} (good : list raw_departure)
    (bad : raw_departure) (rest : list raw_departure) (e : exn) :
  Forall well_formed_departure good ->
  (forall now, passage_of_departure now bad = inl e) ->
  forall n, build_passages n (good ++ bad :: rest) = inl e.
Proof.
  intros Hg Hb. induction Hg as [|dep good Hw _ IH]; intros n; simpl.
  - now rewrite Hb.
  - destruct (passage_of_departure_well_formed (clock n) Hw) as (p & Ep & _).
    now rewrite Ep, IH.
Qed.

Section ClockOnly.
Context {W : World}.

Lemma clock_only_pure {A} (r : exn + A) : reads_clock_only (lift r).
Proof. intros tr. exists O. simpl. now rewrite app_nil_r. Qed.

Lemma clock_only_bind {A B} (m : M A) (k : A -> M B) :
  reads_clock_only m -> (forall a, reads_clock_only (k a)) ->
  reads_clock_only (bind m k).
Proof.
  intros Hm Hk tr. unfold bind. destruct (Hm tr) as [n1 E1].
  destruct (m tr) as [[e|a] tr1]; simpl in *; subst tr1.
  - now exists n1.
  - destruct (Hk a (tr ++ repeat EvNow n1)) as [n2 E2].
    exists (n1 + n2)%nat. now rewrite E2, repeat_app, app_assoc.
Qed.

Lemma clock_only_for_each {A B} (body : B -> A -> M B) (l : list A) :
  (forall acc x, reads_clock_only (body acc x)) ->
  forall acc, reads_clock_only (for_each body l acc).
Proof.
  intros Hb. induction l as [|x l IH]; intros acc; simpl.
  - apply (clock_only_pure (inr acc)).
  - apply clock_only_bind; [apply Hb | exact IH].
Qed.

Lemma clock_only_Passage__init__ (date ligne dest : string) :
  reads_clock_only (Passage__init__ date ligne dest).
Proof.
  intros tr. rewrite Passage__init__unfold.
  destruct (_str_datetime_to_datetime_obj date _DEFAULT_DATE_FORMAT).
  - exists O. simpl. now rewrite app_nil_r.
  - now exists 1%nat.
Qed.

Lemma clock_only_after_fetch (line dest : option string)
    (json_prochains_passages : list raw_departure) :
  reads_clock_only
    (bind
       (if len json_prochains_passages <? 1 then ret None
        else
          bind
            (for_each
               (fun liste passage =>
                  bind (lift (first_item (rd_destination passage)))
                    (fun dest0 =>
                       bind (Passage__init__ (dateTime passage)
                               (shortName (rd_line passage)) (dest_name dest0))
                         (fun p => ret (liste ++ [p]))))
               json_prochains_passages [])
            (fun l => ret (Some (_filter_passages l line dest))))
       (fun liste_prochains_passages =>
          match liste_prochains_passages with
          | Some l => ret l
          | None => raise (UnboundLocalError "liste_prochains_passages")
          end)).
Proof.
  apply clock_only_bind.
  - destruct (len json_prochains_passages <? 1);
      [apply (clock_only_pure (inr None))|].
    apply clock_only_bind; [|intros l; apply (clock_only_pure (inr _))].
    apply clock_only_for_each. intros acc x.
    apply clock_only_bind; [apply clock_only_pure|]. intros d0.
    apply clock_only_bind; [apply clock_only_Passage__init__|].
    intros p. apply (clock_only_pure (inr _)).
  - intros [l|]; [apply (clock_only_pure (inr l))|].
    apply (clock_only_pure (inl _)).
Qed.

(** The trace of a call whose stop is resolved to [a]: the warning if
    there are other matches, one request, then clock readings only. *)
Lemma prochains_passages_trace (name : string) (dest line : option string)
    (a : stop_area) (rest : list stop_area) (tr : list event) :
  get_stop_area_by_name name = a :: rest ->
  exists k,
    snd (prochains_passages name dest line tr)
    = (match rest with
       | [] => tr
       | _ => tr ++ [EvPrint ("Plusieurs arrêts trouvés pour " +++ name)]
       end)
      ++ EvHttpGet (stops_schedules_url (sa_id a) 15 None) :: repeat EvNow k.
Proof.
  intros Hn.
  rewrite (prochains_passages_resolved name dest line tr Hn). cbv zeta.
  set (tr1 := match rest with
              | [] => tr
              | _ => tr ++ [EvPrint ("Plusieurs arrêts trouvés pour " +++ name)]
              end).
  unfold bind at 1. rewrite fetch_unfold. cbv zeta.
  set (url := stops_schedules_url (sa_id a) 15 None).
  match goal with
  | |- context [match (?r, _) with _ => _ end] => destruct r as [e|json]
  end.
  - exists O. reflexivity.
  - destruct (clock_only_after_fetch line dest json (tr1 ++ [EvHttpGet url]))
      as [k Hk].
    exists k. rewrite Hk, <- app_assoc. reflexivity.
Qed.

End ClockOnly.

Lemma own_name_found {W : World} (sa : stop_area) :
  In sa STOP_AREAS_DICT -> In sa (get_stop_area_by_name (sa_name sa)).
Proof.
  intros H. unfold get_stop_area_by_name.
  rewrite (fold_left_append_filter
             (fun s => String.eqb (lower (sa_name s)) (lower (sa_name sa)))).
  simpl. apply filter_In. split; [exact H | apply String.eqb_refl].
Qed.

Lemma filter_none {A} (f : A -> bool) (l : list A) :
  (forall x, In x l -> f x = false) -> filter f l = [].
Proof.
  induction l as [|x l IH]; simpl; intros H; [reflexivity|].
  rewrite (H x (or_introl eq_refl)). apply IH. intros y Hy. apply H. now right.
Qed.

Lemma filter_unique_key {A} (key : A -> string) (l : list A) (x : A) :
  NoDup (map key l) -> In x l ->
  filter (fun y => String.eqb (key y) (key x)) l = [x].
Proof.
  induction l as [|y l IH]; simpl; [tauto|].
  intros Hnd Hin. inversion Hnd as [|? ? Hy Hl]; subst.
  destruct Hin as [->|Hin].
  - rewrite String.eqb_refl. f_equal. apply filter_none.
    intros z Hz. apply String.eqb_neq. intros E. apply Hy. rewrite <- E.
    now apply in_map.
  - destruct (String.eqb (key y) (key x)) eqn:E.
    + apply String.eqb_eq in E. exfalso. apply Hy. rewrite E.
      now apply in_map.
    + now apply IH.
Qed.

(** ** Stop resolution and the request *)

(** X5.  Every entry of the directory is found by its own name, so
    [prochains_passages] called with the name of a directory entry never
    ends with [KeyError]. *)
Theorem directory_name_is_known :
  forall (W : World) (sa : stop_area) (dest line : option string)
         (tr : list event),
    In sa STOP_AREAS_DICT ->
    In sa (get_stop_area_by_name (sa_name sa))
    /\ forall msg,
         fst (prochains_passages (sa_name sa) dest line tr)
         <> inl (KeyError msg).
Proof.
  intros W sa dest line tr Hin.
  pose proof (own_name_found sa Hin) as Hf. split; [exact Hf|].
  destruct (get_stop_area_by_name (sa_name sa)) as [|a rest] eqn:E;
    [destruct Hf|].
  rewrite (prochains_passages_resolved (sa_name sa) dest line tr E). cbv zeta.
  apply fetch_then_appends. apply good_after_fetch.
Qed.

Lemma directory_name_is_known_witness :
  In (mk_stop_area "CAPITOLE" "1970324837190000")
     (@get_stop_area_by_name (ok_world example_departures) "CAPITOLE").
Proof.
  apply (directory_name_is_known (ok_world example_departures)
           (mk_stop_area "CAPITOLE" "1970324837190000") None None []).
  simpl. tauto.
Defined.

(** X6.  When no two directory entries have the same lower-cased name, a
    query equal to an entry's name up to case resolves to that entry
    alone: no warning is printed and the one request is for its id. *)
Theorem unique_names_resolve_exactly :
  forall (W : World) (sa : stop_area) (name : string)
         (dest line : option string) (tr : list event),
    NoDup (map (fun s => lower (sa_name s)) STOP_AREAS_DICT) ->
    In sa STOP_AREAS_DICT ->
    lower name = lower (sa_name sa) ->
    get_stop_area_by_name name = [sa]
    /\ exists k,
         snd (prochains_passages name dest line tr)
         = tr ++ EvHttpGet (stops_schedules_url (sa_id sa) 15 None)
              :: repeat EvNow k.
Proof.
  intros W sa name dest line tr Hnd Hin Hname.
  assert (E : get_stop_area_by_name name = [sa]).
  { unfold get_stop_area_by_name.
    rewrite (fold_left_append_filter
               (fun s => String.eqb (lower (sa_name s)) (lower name))).
    simpl. rewrite Hname.
    exact (filter_unique_key (fun s => lower (sa_name s)) _ _ Hnd Hin). }
  split; [exact E|].
  exact (prochains_passages_trace name dest line tr E).
Qed.

Lemma unique_names_resolve_exactly_witness :
  @get_stop_area_by_name
    (example_world [ mk_stop_area "Capitole" "1970324837184714";
                     mk_stop_area "Jean Jaurès" "1970324837185012" ]
       (inr (mk_response 200 "{...}")) (inr example_departures) example_now)
    "JEAN JAURèS"
  = [ mk_stop_area "Jean Jaurès" "1970324837185012" ].
Proof.
  apply (unique_names_resolve_exactly
           (example_world [ mk_stop_area "Capitole" "1970324837184714";
                            mk_stop_area "Jean Jaurès" "1970324837185012" ]
              (inr (mk_response 200 "{...}")) (inr example_departures)
              example_now)
           (mk_stop_area "Jean Jaurès" "1970324837185012") "JEAN JAURèS"
           None None []).
  - simpl. repeat constructor; simpl; intuition discriminate.
  - simpl. tauto.
  - reflexivity.
Defined.

(** X7.  A call of [prochains_passages] issues no request when the stop
    is unknown and exactly one otherwise, whatever happens afterwards; it
    prints exactly one warning when several entries match and none
    otherwise. *)
Theorem prochains_passages_one_request :
  forall (W : World) (name : string) (dest line : option string)
         (tr : list event),
    count_requests (snd (prochains_passages name dest line tr))
    = (count_requests tr
       + match get_stop_area_by_name name with [] => 0 | _ => 1 end)%nat
    /\ count_warnings (snd (prochains_passages name dest line tr))
       = (count_warnings tr
          + match get_stop_area_by_name name with
            | _ :: _ :: _ => 1
            | _ => 0
            end)%nat.
Proof.
  intros W name dest line tr.
  destruct (get_stop_area_by_name name) as [|a rest] eqn:E.
  - unfold prochains_passages. rewrite E. simpl. lia.
  - destruct (prochains_passages_trace name dest line tr E) as [k Hk].
    rewrite Hk. destruct (counts_repeat_EvNow k) as (_ & Hr & Hw).
    rewrite count_requests_app, count_warnings_app. simpl. rewrite Hr, Hw.
    destruct rest; [lia|].
    rewrite count_requests_app, count_warnings_app. simpl. lia.
Qed.

(** ** The answer of the pipeline *)

(** X8.  When the stop is resolved, the status is 200 and the body decodes
    to a non-empty list of departures that all have a destination and a
    timestamp that parses to a time [localize] accepts (not on the first
    or last day of the calendar), [prochains_passages] succeeds: it returns
    [_filter_passages] of one passage per departure, in the order of the
    answer, each with the departure's timestamp, line and first
    destination, its key and relative-time string derived from them and an
    aware date; the clock is read once per departure. *)
Theorem prochains_passages_builds_in_order :
  forall (W : World) (name : string) (dest line : option string)
         (tr : list event) (a : stop_area) (rest : list stop_area)
         (r : response) (deps : list raw_departure),
    get_stop_area_by_name name = a :: rest ->
    requests_get (stops_schedules_url (sa_id a) 15 None) = inr r ->
    status_code r = 200 ->
    json_departures (text r) = inr deps ->
    deps <> [] ->
    Forall well_formed_departure deps ->
    exists ps,
      fst (prochains_passages name dest line tr)
      = inr (_filter_passages ps line dest)
      /\ map date_str ps = map dateTime deps
      /\ map ligne ps = map (fun d => shortName (rd_line d)) deps
      /\ map (fun p => Some (destination p)) ps
         = map first_destination_name deps
      /\ Forall (fun p =>
                   ligne_destination p = ligne p +++ " : " +++ destination p
                   /\ timedelta_str p = _timedelta_to_str (p_timedelta p)
                   /\ dt_tzinfo (date_obj p) <> None) ps
      /\ clock_reads (snd (prochains_passages name dest line tr))
         = (clock_reads tr + List.length deps)%nat.
Proof.
  intros W name dest line tr a rest r deps Hn Hr Hs Hj Hd Hw.
  destruct (prochains_passages_fetched name dest line tr Hn Hr Hs Hj Hd)
    as [Hf [k [Hk Hlen]]].
  destruct (build_passages_well_formed Hw (clock_reads tr))
    as (ps & Eps & H1 & H2 & H3 & H4).
  exists ps. rewrite Hf, Eps. repeat split; try assumption.
  rewrite Hk, (Hlen ps Eps).
  destruct (counts_repeat_EvNow (List.length deps)) as (Hc & _).
  rewrite clock_reads_app. simpl. rewrite Hc.
  destruct rest; [reflexivity|]. rewrite clock_reads_app. simpl. lia.
Qed.

Lemma prochains_passages_builds_in_order_witness :
  exists ps,
    fst (@prochains_passages (ok_world example_departures) "jean jaurès"
           None (Some "109") [])
    = inr (@_filter_passages (ok_world example_departures) ps
             (Some "109") None)
    /\ map ligne ps = ["L6"; "109"; "L6"; "L6"].
Proof.
  destruct (@prochains_passages_builds_in_order
              (ok_world example_departures) "jean jaurès" None (Some "109") []
              (mk_stop_area "Jean Jaurès" "1970324837185012") []
              (mk_response 200 "{...}") example_departures
              eq_refl eq_refl eq_refl eq_refl)
    as (ps & H1 & _ & H2 & _).
  - discriminate.
  - well_formed_departures.
  - exists ps. split; [exact H1 | exact H2].
Defined.

(** X9.  One departure that cannot be built makes the whole call fail,
    whatever the filters would have kept: after any number of well-formed
    departures, a departure without destination ends the call with
    [IndexError]; one with a destination but a timestamp that does not
    parse ends it with the [TypeError] naming that timestamp; and one with
    a destination and a timestamp parsed without zone on the first or last
    day of the calendar ends it with [OverflowError]. *)
Theorem prochains_passages_aborts_on_malformed :
  forall (W : World) (name : string) (dest line : option string)
         (tr : list event) (a : stop_area) (rest : list stop_area)
         (r : response) (good : list raw_departure) (bad : raw_departure)
         (others : list raw_departure),
    get_stop_area_by_name name = a :: rest ->
    requests_get (stops_schedules_url (sa_id a) 15 None) = inr r ->
    status_code r = 200 ->
    json_departures (text r) = inr (good ++ bad :: others) ->
    Forall well_formed_departure good ->
    (rd_destination bad = [] ->
       fst (prochains_passages name dest line tr)
       = inl (IndexError "list index out of range"))
    /\ (rd_destination bad <> [] ->
          strptime (dateTime bad) _DEFAULT_DATE_FORMAT = None ->
          fst (prochains_passages name dest line tr)
          = inl (TypeError
                   ("date must match the format %Y-%m-%d %H:%M:%S, received : "
                    +++ dateTime bad)))
    /\ (forall d,
          rd_destination bad <> [] ->
          strptime (dateTime bad) _DEFAULT_DATE_FORMAT = Some d ->
          dt_tzinfo d = None -> localize_overflows d = true ->
          fst (prochains_passages name dest line tr)
          = inl (OverflowError "date value out of range")).
Proof.
  intros W name dest line tr a rest r good bad others Hn Hr Hs Hj Hg.
  assert (Hd : good ++ bad :: others <> []) by (destruct good; discriminate).
  destruct (prochains_passages_fetched name dest line tr Hn Hr Hs Hj Hd)
    as [Hf _].
  split; [|split].
  - intros Hb.
    rewrite Hf, (@build_passages_stops W good bad others
                   (IndexError "list index out of range") Hg);
      [reflexivity|].
    intros now. unfold passage_of_departure. now rewrite Hb.
  - intros Hb Hp.
    rewrite Hf, (@build_passages_stops W good bad others
                   (TypeError
                      ("date must match the format %Y-%m-%d %H:%M:%S, received : "
                       +++ dateTime bad)) Hg);
      [reflexivity|].
    intros now. unfold passage_of_departure.
    destruct (rd_destination bad) as [|d0 ?]; [congruence|]. simpl.
    unfold _str_datetime_to_datetime_obj. rewrite Hp. reflexivity.
  - intros d Hb Hp Hz Ho.
    rewrite Hf, (@build_passages_stops W good bad others
                   (OverflowError "date value out of range") Hg);
      [reflexivity|].
    intros now. unfold passage_of_departure.
    destruct (rd_destination bad) as [|d0 ?]; [congruence|]. simpl.
    unfold _str_datetime_to_datetime_obj.
    now rewrite Hp, Hz, localize_paris, Ho.
Qed.

Lemma prochains_passages_aborts_on_malformed_witness :
  fst (@prochains_passages
         (ok_world [ departure "2023-01-15 12:52:00" "L6" "Ramonville";
                     departure "15/01/2023 12:55" "109" "Labège" ])
         "jean jaurès" None (Some "L6") [])
  = inl (TypeError "date must match the format %Y-%m-%d %H:%M:%S, received : 15/01/2023 12:55")
  /\ fst (@prochains_passages
            (ok_world [ departure "2023-01-15 12:52:00" "L6" "Ramonville";
                        departure "9999-12-31 23:59:59" "109" "Labège" ])
            "jean jaurès" None (Some "L6") [])
     = inl (OverflowError "date value out of range").
Proof.
  split.
  - apply (proj1 (proj2 (@prochains_passages_aborts_on_malformed
                  (ok_world [ departure "2023-01-15 12:52:00" "L6" "Ramonville";
                              departure "15/01/2023 12:55" "109" "Labège" ])
                  "jean jaurès" None (Some "L6") []
                  (mk_stop_area "Jean Jaurès" "1970324837185012") []
                  (mk_response 200 "{...}")
                  [departure "2023-01-15 12:52:00" "L6" "Ramonville"]
                  (departure "15/01/2023 12:55" "109" "Labège") []
                  eq_refl eq_refl eq_refl eq_refl
                  ltac:(well_formed_departures)))).
    + discriminate.
    + reflexivity.
  - apply (proj2 (proj2 (@prochains_passages_aborts_on_malformed
                  (ok_world [ departure "2023-01-15 12:52:00" "L6" "Ramonville";
                              departure "9999-12-31 23:59:59" "109" "Labège" ])
                  "jean jaurès" None (Some "L6") []
                  (mk_stop_area "Jean Jaurès" "1970324837185012") []
                  (mk_response 200 "{...}")
                  [departure "2023-01-15 12:52:00" "L6" "Ramonville"]
                  (departure "9999-12-31 23:59:59" "109" "Labège") []
                  eq_refl eq_refl eq_refl eq_refl
                  ltac:(well_formed_departures)))
                 (mk_datetime 9999 12 31 23 59 59 0 None)).
    + discriminate.
    + reflexivity.
    + reflexivity.
    + reflexivity.
Defined.

Lemma bind_fetch_raises {W : World} {A} (id : string)
    (k : list raw_departure -> M A) (tr : list event) (e : exn) :
  fst (get_prochains_passages_for_stop_area_id id 15 None tr) = inl e ->
  bind (get_prochains_passages_for_stop_area_id id 15 None) k tr
  = (inl e, tr ++ [EvHttpGet (stops_schedules_url id 15 None)]).
Proof.
  unfold bind. rewrite fetch_unfold. cbv zeta. simpl. now intros ->.
Qed.

(** X10.  Failures of the fetch pass through [prochains_passages]
    unchanged, after the one request and without reading the clock: an
    exception of [requests.get], the [ConnectionError] for a status other
    than 200, and a failure to decode the body. *)
Theorem prochains_passages_propagates_fetch_failure :
  forall (W : World) (name : string) (dest line : option string)
         (tr : list event) (a : stop_area) (rest : list stop_area),
    get_stop_area_by_name name = a :: rest ->
    let url := stops_schedules_url (sa_id a) 15 None in
    (forall msg, requests_get url = inl msg ->
       fst (prochains_passages name dest line tr) = inl (RequestException msg)
       /\ clock_reads (snd (prochains_passages name dest line tr))
          = clock_reads tr)
    /\ (forall r, requests_get url = inr r -> status_code r <> 200 ->
          fst (prochains_passages name dest line tr)
          = inl (ConnectionError ("Status code " +++ str_of_int (status_code r)
                                  +++ " for url " +++ url))
          /\ clock_reads (snd (prochains_passages name dest line tr))
             = clock_reads tr)
    /\ (forall r msg, requests_get url = inr r -> status_code r = 200 ->
          json_departures (text r) = inl msg ->
          fst (prochains_passages name dest line tr) = inl (DecodeError msg)
          /\ clock_reads (snd (prochains_passages name dest line tr))
             = clock_reads tr).
Proof.
  intros W name dest line tr a rest Hn url.
  rewrite (prochains_passages_resolved name dest line tr Hn). cbv zeta.
  set (tr1 := match rest with
              | [] => tr
              | _ => tr ++ [EvPrint ("Plusieurs arrêts trouvés pour " +++ name)]
              end).
  assert (Hc : clock_reads (tr1 ++ [EvHttpGet url]) = clock_reads tr).
  { rewrite clock_reads_app. simpl. unfold tr1. destruct rest; [lia|].
    rewrite clock_reads_app. simpl. lia. }
  split; [|split].
  - intros msg Hr. rewrite bind_fetch_raises with (e := RequestException msg).
    + split; [reflexivity | exact Hc].
    + rewrite fetch_unfold. cbv zeta. fold url. now rewrite Hr.
  - intros r Hr Hs.
    rewrite bind_fetch_raises
      with (e := ConnectionError ("Status code " +++ str_of_int (status_code r)
                                  +++ " for url " +++ url)).
    + split; [reflexivity | exact Hc].
    + rewrite fetch_unfold. cbv zeta. fold url. rewrite Hr.
      apply Z.eqb_neq in Hs. now rewrite Hs.
  - intros r msg Hr Hs Hj.
    rewrite bind_fetch_raises with (e := DecodeError msg).
    + split; [reflexivity | exact Hc].
    + rewrite fetch_unfold. cbv zeta. fold url. now rewrite Hr, Hs, Hj.
Qed.

Lemma prochains_passages_propagates_fetch_failure_witness :
  fst (@prochains_passages (failing_world 500 "oops") "jean jaurès"
         None None [])
  = inl (ConnectionError "Status code 500 for url https://api.tisseo.fr/v1/stops_schedules.json?stopAreaId=1970324837185012&key=k3y&number=15")
  /\ fst (@prochains_passages (failing_world 200 "oops") "jean jaurès"
            None None [])
     = inl (DecodeError "Expecting value: line 1 column 1 (char 0)").
Proof.
  split.
  - apply (proj1 (proj2 (@prochains_passages_propagates_fetch_failure
                           (failing_world 500 "oops") "jean jaurès" None None
                           [] (mk_stop_area "Jean Jaurès" "1970324837185012")
                           [] eq_refl))
                 (mk_response 500 "oops") eq_refl).
    discriminate.
  - apply (proj2 (proj2 (@prochains_passages_propagates_fetch_failure
                           (failing_world 200 "oops") "jean jaurès" None None
                           [] (mk_stop_area "Jean Jaurès" "1970324837185012")
                           [] eq_refl))
                 (mk_response 200 "oops") _ eq_refl eq_refl eq_refl).
Defined.

(** ** Time remaining *)

Lemma timedelta_new_normalised (d s us : Z) :
  timedelta_total_us (timedelta_new d s us) = (d * 86400 + s) * 1000000 + us
  /\ 0 <= seconds (timedelta_new d s us) < 86400
  /\ 0 <= microseconds (timedelta_new d s us) < 1000000.
Proof.
  unfold timedelta_total_us, timedelta_new. simpl.
  set (total := (d * 86400 + s) * 1000000 + us).
  assert (HD : us_per_day = 86400 * 1000000) by reflexivity.
  pose proof (Z.div_mod total us_per_day ltac:(lia)) as E1.
  pose proof (Z.mod_pos_bound total us_per_day ltac:(lia)) as B1.
  set (rem := total mod us_per_day) in *.
  pose proof (Z.div_mod rem 1000000 ltac:(lia)) as E2.
  pose proof (Z.mod_pos_bound rem 1000000 ltac:(lia)) as B2.
  split; [lia|]. split; [|exact B2].
  split; [apply Z.div_pos; lia | apply Z.div_lt_upper_bound; lia].
Qed.

Lemma datetime_sub_aware (a b : datetime) (ta tb : tzinfo) :
  dt_tzinfo a = Some ta -> dt_tzinfo b = Some tb ->
  exists td,
    datetime_sub a b = inr td
    /\ timedelta_total_us td = utc_microseconds a - utc_microseconds b
    /\ 0 <= seconds td < 86400
    /\ 0 <= microseconds td < 1000000.
Proof.
  intros Ha Hb. unfold datetime_sub, utc_microseconds. rewrite Ha, Hb.
  destruct (Z.eqb_spec (utcoffset ta) (utcoffset tb)) as [E|E];
    eexists; (split; [reflexivity|]);
    match goal with
    | |- context [timedelta_new ?d ?s ?u] =>
        destruct (timedelta_new_normalised d s u) as (T & S1 & U1)
    end; (split; [rewrite T; lia | split; assumption]).
Qed.

Lemma datetime_sub_normalised (a b : datetime) (td : timedelta) :
  datetime_sub a b = inr td ->
  0 <= seconds td < 86400 /\ 0 <= microseconds td < 1000000.
Proof.
  unfold datetime_sub.
  destruct (dt_tzinfo a), (dt_tzinfo b); try discriminate;
    try destruct (_ =? _); intros [= <-];
    match goal with
    | |- context [timedelta_new ?d ?s ?u] =>
        destruct (timedelta_new_normalised d s u) as (_ & S1 & U1)
    end; split; assumption.
Qed.

Lemma get_timedelta_unfold {W : World} (date : datetime) (tr : list event) :
  _get_timedelta date tr
  = (datetime_sub date (aware_now (clock (clock_reads tr))), tr ++ [EvNow]).
Proof.
  unfold _get_timedelta, datetime_now, bind, lift, aware_now.
  destruct (dt_tzinfo (clock (clock_reads tr))); reflexivity.
Qed.

(** X11.  [_get_timedelta] on a date without time zone always raises the
    [TypeError] of subtracting a naive from an aware datetime, after
    reading the clock once: the current time is made aware whatever the
    clock returns. *)
Theorem get_timedelta_naive_date_raises :
  forall (W : World) (date : datetime) (tr : list event),
    dt_tzinfo date = None ->
    _get_timedelta date tr
    = (inl (TypeError "can't subtract offset-naive and offset-aware datetimes"),
       tr ++ [EvNow]).
Proof.
  intros W date tr H. rewrite get_timedelta_unfold. f_equal.
  pose proof (aware_now_tzinfo (clock (clock_reads tr))) as Hn.
  unfold datetime_sub. rewrite H.
  destruct (dt_tzinfo (aware_now (clock (clock_reads tr)))); congruence.
Qed.

Lemma get_timedelta_naive_date_raises_witness :
  fst (@_get_timedelta (ok_world [])
         (mk_datetime 2023 1 15 12 52 0 0 None) [])
  = inl (TypeError "can't subtract offset-naive and offset-aware datetimes").
Proof.
  rewrite (get_timedelta_naive_date_raises (ok_world [])
             (mk_datetime 2023 1 15 12 52 0 0 None) [] eq_refl).
  reflexivity.
Defined.

(** X12.  [_get_timedelta] on an aware date reads the clock once and
    returns the time elapsing from the current instant to the date, as
    instants of UTC whatever the two zones, in normalised form: seconds
    within a day and microseconds within a second. *)
Theorem get_timedelta_is_elapsed_time :
  forall (W : World) (date : datetime) (tz : tzinfo) (tr : list event),
    dt_tzinfo date = Some tz ->
    exists td,
      _get_timedelta date tr = (inr td, tr ++ [EvNow])
      /\ timedelta_total_us td
         = utc_microseconds date
           - utc_microseconds (aware_now (clock (clock_reads tr)))
      /\ 0 <= seconds td < 86400
      /\ 0 <= microseconds td < 1000000.
Proof.
  intros W date tz tr H. rewrite get_timedelta_unfold.
  pose proof (aware_now_tzinfo (clock (clock_reads tr))) as Hn.
  destruct (dt_tzinfo (aware_now (clock (clock_reads tr)))) as [tb|] eqn:Eb;
    [|congruence].
  destruct (datetime_sub_aware _ _ H Eb) as (td & E & T & S1 & U1).
  exists td. rewrite E. repeat split; try assumption; lia.
Qed.

Lemma get_timedelta_is_elapsed_time_witness :
  exists td,
    @_get_timedelta (ok_world [])
      (mk_datetime 2023 1 15 12 52 0 0 (Some (mk_tzinfo "Europe/Paris" 3600)))
      []
    = (inr td, [EvNow])
    /\ timedelta_total_us td = 1320 * 1000000.
Proof.
  destruct (get_timedelta_is_elapsed_time (ok_world [])
              (mk_datetime 2023 1 15 12 52 0 0
                 (Some (mk_tzinfo "Europe/Paris" 3600)))
              [] eq_refl) as (td & E & T & _).
  exists td. split; [exact E|]. rewrite T. reflexivity.
Defined.

Lemma digits_no_minus (d : Decimal.uint) (s : string) :
  contains "-" s = false ->
  contains "-" (NilEmpty.string_of_uint d +++ s) = false.
Proof.
  intros Hs. induction d; simpl; try exact IHd. exact Hs.
Qed.

Lemma str_of_int_positive_no_minus (n : Z) (s : string) :
  0 < n -> contains "-" s = false ->
  contains "-" (str_of_int n +++ s) = false.
Proof.
  intros Hn Hs. destruct n as [|p|p]; try lia.
  unfold str_of_int. simpl.
  unfold NilZero.string_of_uint.
  destruct (Pos.to_uint p) eqn:E; try (rewrite <- E; now apply digits_no_minus).
  simpl. now rewrite Hs.
Qed.

(** X13.  The relative-time string of a normalised duration (seconds
    within a day) never holds a minus sign, however far in the past the
    departure is; this is the case of the string stored in every [Passage]
    that is constructed. *)
Theorem timedelta_str_is_unsigned :
  (forall td : timedelta,
      0 <= seconds td < 86400 ->
      contains "-" (_timedelta_to_str td) = false)
  /\ (forall (W : World) (date ligne dest : string) (tr tr' : list event)
             (p : Passage),
         Passage__init__ date ligne dest tr = (inr p, tr') ->
         0 <= seconds (p_timedelta p) < 86400
         /\ contains "-" (timedelta_str p) = false).
Proof.
  assert (H : forall td : timedelta,
             0 <= seconds td < 86400 ->
             contains "-" (_timedelta_to_str td) = false).
  { intros td Hs. destruct (Z.lt_ge_cases 0 (days td)) as [Hd|Hd].
    - rewrite timedelta_to_str_days by exact Hd.
      now apply str_of_int_positive_no_minus.
    - rewrite timedelta_to_str_hours_minutes by exact Hd.
      assert (Hh : 0 <= seconds td / 3600 < 24)
        by (split; [apply Z.div_pos; lia | apply Z.div_lt_upper_bound; lia]).
      assert (Hm : 0 <= (seconds td mod 3600) / 60 < 60).
      { pose proof (Z.mod_pos_bound (seconds td) 3600 ltac:(lia)).
        split; [apply Z.div_pos; lia | apply Z.div_lt_upper_bound; lia]. }
      pose proof (hours_minutes_str_unsigned Hh Hm) as Hu.
      unfold no_sign_no_days in Hu. apply andb_true_iff in Hu.
      now apply negb_true_iff. }
  split; [exact H|].
  intros W date ligne dest tr tr' p. rewrite Passage__init__unfold.
  destruct (_str_datetime_to_datetime_obj date _DEFAULT_DATE_FORMAT)
    as [e|date_obj]; [discriminate|].
  destruct (datetime_sub date_obj (aware_now (clock (clock_reads tr))))
    as [e|td] eqn:E; [discriminate|].
  intros [= <- _]. simpl.
  destruct (datetime_sub_normalised _ _ E) as [Hs _].
  split; [exact Hs | now apply H].
Qed.

Lemma timedelta_str_is_unsigned_witness :
  contains "-" (_timedelta_to_str (mk_timedelta (-3) 84600 0)) = false
  /\ contains "-" (_timedelta_to_str (mk_timedelta 12 100 0)) = false.
Proof.
  split; apply (proj1 timedelta_str_is_unsigned); simpl; lia.
Defined.

(** ** What a successful call returns *)

Lemma passage_of_departure_invariant {W : World} (now : datetime)
    (dep : raw_departure) (p : Passage) :
  passage_of_departure now dep = inr p ->
  ligne_destination p = ligne p +++ " : " +++ destination p
  /\ timedelta_str p = _timedelta_to_str (p_timedelta p)
  /\ dt_tzinfo (date_obj p) <> None.
Proof.
  unfold passage_of_departure.
  destruct (first_item (rd_destination dep)) as [e|d0]; [discriminate|].
  destruct (_str_datetime_to_datetime_obj (dateTime dep) _DEFAULT_DATE_FORMAT)
    as [e|date_obj] eqn:E; [discriminate|].
  destruct (datetime_sub date_obj (aware_now now)) as [e|td]; [discriminate|].
  intros [= <-]. simpl. repeat split.
  eapply str_datetime_to_datetime_obj_tzinfo, E.
Qed.

Lemma build_passages_invariant {W : World} (deps : list raw_departure) :
  forall n ps,
    build_passages n deps = inr ps ->
    Forall (fun p =>
              ligne_destination p = ligne p +++ " : " +++ destination p
              /\ timedelta_str p = _timedelta_to_str (p_timedelta p)
              /\ dt_tzinfo (date_obj p) <> None) ps.
Proof.
  induction deps as [|dep deps IH]; intros n ps; simpl.
  - intros [= <-]. constructor.
  - destruct (passage_of_departure (clock n) dep) as [e|p] eqn:Ep;
      [discriminate|].
    destruct (build_passages (S n) deps) as [e|ps'] eqn:Eps; [discriminate|].
    intros [= <-]. constructor.
    + eapply passage_of_departure_invariant, Ep.
    + eapply IH, Eps.
Qed.

Lemma prochains_passages_success_inv {W : World} (name : string)
    (dest line : option string) (tr : list event) (res : list Passage) :
  fst (prochains_passages name dest line tr) = inr res ->
  exists deps ps,
    deps <> []
    /\ build_passages (clock_reads tr) deps = inr ps
    /\ res = _filter_passages ps line dest.
Proof.
  intros H.
  destruct (get_stop_area_by_name name) as [|a rest] eqn:Hn.
  { unfold prochains_passages in H. rewrite Hn in H. discriminate. }
  set (url := stops_schedules_url (sa_id a) 15 None).
  assert (Hfail : forall e,
             fst (get_prochains_passages_for_stop_area_id (sa_id a) 15 None
                    (match rest with
                     | [] => tr
                     | _ => tr ++ [EvPrint ("Plusieurs arrêts trouvés pour "
                                            +++ name)]
                     end)) = inl e -> False).
  { intros e He.
    rewrite (prochains_passages_resolved name dest line tr Hn) in H.
    cbv zeta in H. rewrite (bind_fetch_raises _ _ _ He) in H. discriminate. }
  destruct (requests_get url) as [msg|r] eqn:Hr.
  { exfalso. apply (Hfail (RequestException msg)).
    rewrite fetch_unfold. cbv zeta. fold url. now rewrite Hr. }
  destruct (Z.eqb_spec (status_code r) 200) as [Hs|Hs].
  2:{ exfalso.
      apply (Hfail (ConnectionError
                      ("Status code " +++ str_of_int (status_code r)
                       +++ " for url " +++ url))).
      rewrite fetch_unfold. cbv zeta. fold url. rewrite Hr.
      apply Z.eqb_neq in Hs. now rewrite Hs. }
  destruct (json_departures (text r)) as [msg|deps] eqn:Hj.
  { exfalso. apply (Hfail (DecodeError msg)).
    rewrite fetch_unfold. cbv zeta. fold url. now rewrite Hr, Hs, Hj. }
  destruct deps as [|dep deps].
  { exfalso.
    rewrite (prochains_passages_resolved name dest line tr Hn) in H.
    cbv zeta in H. unfold bind at 1 in H. rewrite fetch_unfold in H.
    cbv zeta in H. fold url in H. rewrite Hr, Hs, Hj in H. discriminate. }
  assert (Hd : dep :: deps <> []) by discriminate.
  destruct (prochains_passages_fetched name dest line tr Hn Hr Hs Hj Hd)
    as [Hf _].
  rewrite Hf in H.
  destruct (build_passages (clock_reads tr) (dep :: deps)) as [e|ps] eqn:Eb;
    [discriminate|].
  injection H as <-. exists (dep :: deps), ps. auto.
Qed.

Lemma NoDup_map_finer {A B C} (f : A -> B) (g : A -> C) (l : list A) :
  (forall x y, In x l -> In y l -> g x = g y -> f x = f y) ->
  NoDup (map f l) -> NoDup (map g l).
Proof.
  induction l as [|x l IH]; simpl; intros H Hnd; [constructor|].
  inversion Hnd as [|? ? Hx Hl]; subst. constructor.
  - intros Hin. apply in_map_iff in Hin. destruct Hin as (y & Ey & Hy).
    apply Hx. rewrite <- (H y x); [now apply in_map | now right | now left
                                  | exact Ey].
  - apply IH; [|exact Hl]. intros y z Hy Hz. apply H; now right.
Qed.

(** X14.  Whenever [prochains_passages] returns a list, no two of its
    passages have the same key nor the same (line, destination) pair, every
    one passes the line and the destination argument, and every one has
    its key and its relative-time string derived from its own fields and an
    aware date. *)
Theorem prochains_passages_result_invariant :
  forall (W : World) (name : string) (dest line : option string)
         (tr : list event) (res : list Passage),
    fst (prochains_passages name dest line tr) = inr res ->
    NoDup (map ligne_destination res)
    /\ NoDup (map line_destination_pair res)
    /\ Forall (fun p =>
                 line_selected line p = true
                 /\ destination_selected dest p = true
                 /\ ligne_destination p = ligne p +++ " : " +++ destination p
                 /\ timedelta_str p = _timedelta_to_str (p_timedelta p)
                 /\ dt_tzinfo (date_obj p) <> None) res.
Proof.
  intros W name dest line tr res H.
  destruct (prochains_passages_success_inv name dest line tr H)
    as (deps & ps & _ & Eb & ->).
  pose proof (build_passages_invariant deps _ Eb) as Hinv.
  rewrite Forall_forall in Hinv.
  assert (Hall : forall p, In p (_filter_passages ps line dest) ->
                           In p ps /\ line_selected line p = true
                           /\ destination_selected dest p = true).
  { intros p Hp. rewrite filter_passages_as_filter in Hp.
    apply keep_first_incl, filter_In in Hp.
    rewrite andb_true_iff in Hp. tauto. }
  assert (Hnd : NoDup (map ligne_destination (_filter_passages ps line dest)))
    by (rewrite filter_passages_as_filter; apply keep_first_NoDup).
  split; [exact Hnd | split].
  - apply (NoDup_map_finer ligne_destination); [|exact Hnd].
    intros p q Hp Hq E. unfold line_destination_pair in E.
    injection E as El Ed.
    destruct (Hinv p (proj1 (Hall p Hp))) as [Kp _].
    destruct (Hinv q (proj1 (Hall q Hq))) as [Kq _].
    now rewrite Kp, Kq, El, Ed.
  - apply Forall_forall. intros p Hp.
    destruct (Hall p Hp) as (Hin & Hl & Hd).
    destruct (Hinv p Hin) as (K1 & K2 & K3). tauto.
Qed.

Lemma prochains_passages_result_invariant_witness :
  exists res,
    fst (@prochains_passages (ok_world example_departures) "jean jaurès"
           None (Some "l6") [])
    = inr res
    /\ NoDup (map line_destination_pair res)
    /\ List.length res = 2%nat.
Proof.
  eexists. split; [reflexivity|]. split; [|reflexivity].
  apply (@prochains_passages_result_invariant (ok_world example_departures)
           "jean jaurès" None (Some "l6") []).
  reflexivity.
Defined.
